(** * etl/db_utilities.py: database and object-store helpers of the ETL pipeline

    A shallow embedding of [src/etl/db_utilities.py].  The module talks to
    three collaborators that are not part of it: the [sqlite3] driver, the
    file system and [boto3].  They are kept abstract (record [Externals]):
    every call of the module into one of them is a [call] performed on an
    external state, which answers with a reply or raises a Python exception.
    The functions of the module are written in a small state-and-exception
    monad that threads the local variables of the running function, the
    external state and the trace of calls and log lines. *)

From Stdlib Require Import String Ascii List ZArith Lia Bool Arith DecimalString.
Import ListNotations.
Open Scope string_scope.

(** ** Python values, exceptions and results *)

(** A scalar stored in a row. *)
Inductive value : Type :=
| VNone
| VInt (z : Z)
| VStr (s : string).

(** A row: an ordered tuple of scalars. *)
Definition tuple : Type := list value.

(** The exception classes that matter to the module: the [sqlite3] hierarchy
    ([sqlite3.Error] and its subclasses) and classes outside of it.  Only
    subclasses of [Exception] are modelled. *)
Inductive exn_class : Type :=
| sqlite3_Error
| sqlite3_InterfaceError
| sqlite3_DatabaseError
| sqlite3_DataError
| sqlite3_OperationalError
| sqlite3_IntegrityError
| sqlite3_InternalError
| sqlite3_ProgrammingError
| sqlite3_NotSupportedError
| OSError
| FileNotFoundError
| PermissionError
| OverflowError
| TypeError
| OtherException.

(** An exception instance: its class and the text [str(ex)] gives. *)
Record exn : Type := mkExn { exn_class_of : exn_class; str_exn : string }.

(** [isinstance(ex, sqlite3.Error)] *)
Definition is_sqlite3_Error (ex : exn) : bool :=
  match exn_class_of ex with
  | sqlite3_Error | sqlite3_InterfaceError | sqlite3_DatabaseError
  | sqlite3_DataError | sqlite3_OperationalError | sqlite3_IntegrityError
  | sqlite3_InternalError | sqlite3_ProgrammingError
  | sqlite3_NotSupportedError => true
  | _ => false
  end.

(** [isinstance(ex, sqlite3.IntegrityError)] *)
Definition is_sqlite3_IntegrityError (ex : exn) : bool :=
  match exn_class_of ex with
  | sqlite3_IntegrityError => true
  | _ => false
  end.

(** [isinstance(ex, Exception)] *)
Definition is_Exception (ex : exn) : bool := true.

(** The outcome of a Python call: it returns or it raises. *)
Inductive result (A : Type) : Type :=
| Ok (a : A)
| Raise (ex : exn).
Arguments Ok {A} a.
Arguments Raise {A} ex.

(** ** The collaborators *)

(** The calls the module makes into [os], [sqlite3] and [boto3]. *)
Inductive call : Type :=
| os_makedirs (path : string)
| open_read (path : string)
| sqlite3_connect (path : string)
| connection_cursor
| cursor_execute (sql : string) (params : option tuple)
| cursor_executescript (script : string)
| cursor_fetchall
| connection_commit
| connection_rollback
| connection_close
| boto3_Session (access_key secret_key region : string)
| session_client (service : string)
| s3_download_file (bucket key filename : string)
| s3_upload_file (filename bucket key : string).

(** What a call answers when it returns. *)
Inductive reply : Type :=
| RNone
| RText (s : string)
| RRows (rows : list tuple).

Definition text_of (r : reply) : string :=
  match r with RText s => s | _ => "" end.

Definition rows_of (r : reply) : list tuple :=
  match r with RRows rows => rows | _ => [] end.

(** The collaborators over an external state [E] (database file, file
    system, process environment, object store). *)
Record Externals (E : Type) : Type := {
  perform : call -> E -> E * result reply;
  environ_get : string -> E -> option string;   (* os.environ.get(name) *)
  str_tuple : tuple -> string                    (* str(row) *)
}.
Arguments perform {E} _ _ _.
Arguments environ_get {E} _ _ _.
Arguments str_tuple {E} _ _.

(** Values of [etl.constants] the module reads. *)
Record constants : Type := {
  EXTRACTED_DATA_DIR : string;
  GENERATED_DATA_DIR : string;
  CREATE_TABLE_DEFINITIONS_FILE_PATH : string;
  DB_LOCAL_PATH : string;
  S3_BUCKET_NAME : string;
  SQLITE_DB_NAME : string
}.

Inductive log_level : Type := INFO_LOG_LEVEL | ERROR_LOG_LEVEL.

(** What an observer of a run sees: the calls made, in order, and the lines
    handed to the logger. *)
Inductive event : Type :=
| Called (c : call)
| Logged (level : log_level) (message : string).

Record world (E : Type) : Type := mkWorld { ext : E; trace : list event }.
Arguments mkWorld {E} ext trace.
Arguments ext {E} w.
Arguments trace {E} w.

(** ** The monad: local variables, world, exceptions *)

Definition M (E L A : Type) : Type := L * world E -> (L * world E) * result A.

Section Monad.
Context {E L : Type}.

Definition ret {A} (a : A) : M E L A := fun s => (s, Ok a).

Definition bind {A B} (m : M E L A) (k : A -> M E L B) : M E L B :=
  fun s => match m s with
           | (s1, Ok a) => k a s1
           | (s1, Raise ex) => (s1, Raise ex)
           end.

Definition raise {A} (ex : exn) : M E L A := fun s => (s, Raise ex).

(** Reading and assigning the local variables of the running function. *)
Definition get_locals : M E L L := fun s => (s, Ok (fst s)).
Definition set_locals (f : L -> L) : M E L unit :=
  fun s => ((f (fst s), snd s), Ok tt).

(** [try: body  except C1 as ex: h1  except C2 as ex: h2 ...]: the first
    clause whose class matches handles the exception; with no match it
    propagates. *)
Fixpoint dispatch {A} (clauses : list ((exn -> bool) * (exn -> M E L A)))
         (ex : exn) : M E L A :=
  match clauses with
  | [] => raise ex
  | (matches, handler) :: rest =>
      if matches ex then handler ex else dispatch rest ex
  end.

Definition try_except {A} (body : M E L A)
           (clauses : list ((exn -> bool) * (exn -> M E L A))) : M E L A :=
  fun s => match body s with
           | (s1, Ok a) => (s1, Ok a)
           | (s1, Raise ex) => dispatch clauses ex s1
           end.
End Monad.

Notation "x <- m ;; k" := (bind m (fun x => k))
  (at level 61, m at next level, right associativity).
Notation "m ;;; k" := (bind m (fun _ => k))
  (at level 61, right associativity).

Section DbUtilities.
Context {E : Type} (X : Externals E) (K : constants).

(** A call into a collaborator: it is recorded, then performed. *)
Definition do_call {L} (c : call) : M E L reply :=
  fun s =>
    let '(l, w) := s in
    let '(e1, r) := perform X c (ext w) in
    ((l, mkWorld e1 (trace w ++ [Called c])), r).

(** Modelled from the spec: [etl.log_utilities.custom_logger] is not among
    the sources; the spec describes it as a leveled logger (INFO/ERROR)
    that is handed one line per failure or summary.  It records the line
    and returns. *)
Definition custom_logger {L} (level : log_level) (message : string)
  : M E L unit :=
  fun s =>
    let '(l, w) := s in
    ((l, mkWorld (ext w) (trace w ++ [Logged level message])), Ok tt).

(** [with sqlite3.connect(path) as db_connection: body]: the connection is
    opened.  When the body ends, [Connection.__exit__] commits; when that
    commit raises, it rolls back and the exception of the commit goes on.
    When the body raises, [__exit__] rolls back and the exception of the
    body goes on.  An exception of the rollback takes the place of the one
    that was under way. *)
Definition with_connect {L A} (path : string) (body : M E L A) : M E L A :=
  do_call (sqlite3_connect path) ;;;
  fun s => match body s with
           | (s1, Ok a) =>
               match do_call connection_commit s1 with
               | (s2, Ok _) => (s2, Ok a)
               | (s2, Raise ex) =>
                   (do_call connection_rollback ;;; raise ex) s2
               end
           | (s1, Raise ex) => (do_call connection_rollback ;;; raise ex) s1
           end.

(** Running a function: fresh local variables, the caller's world. *)
Definition run_function {L A} (init : L) (body : M E L A) (w : world E)
  : world E * result A :=
  let '((_, w1), r) := body (init, w) in (w1, r).

(** [os.environ.get(name)] *)
Definition os_environ_get {L} (name : string) : M E L (option string) :=
  fun s => (s, Ok (environ_get X name (ext (snd s)))).

(** *** ensure_data_directories_exist *)

Definition ensure_data_directories_exist {L} : M E L unit :=
  do_call (os_makedirs (EXTRACTED_DATA_DIR K)) ;;;
  do_call (os_makedirs (GENERATED_DATA_DIR K)) ;;;
  ret tt.

(** *** create_database *)

Definition msg_database_created : string :=
  "Database created at " ++ DB_LOCAL_PATH K.

Definition msg_error_creating (e : exn) : string :=
  "Error creating the database: " ++ str_exn e.

(** The [with open(...) as sql_file] block, which opens, reads and closes
    the schema file, is the single call [open_read]. *)
Definition create_database_body : M E unit unit :=
  ensure_data_directories_exist ;;;
  try_except
    (sql_file <- do_call (open_read (CREATE_TABLE_DEFINITIONS_FILE_PATH K)) ;;
     let sql_script := text_of sql_file in
     do_call (sqlite3_connect (DB_LOCAL_PATH K)) ;;;
     do_call connection_cursor ;;;
     do_call (cursor_executescript sql_script) ;;;
     do_call connection_commit ;;;
     do_call connection_close ;;;
     custom_logger INFO_LOG_LEVEL msg_database_created)
    [ (is_Exception,
       fun e => custom_logger ERROR_LOG_LEVEL (msg_error_creating e)) ].

Definition create_database : world E -> world E * result unit :=
  run_function tt create_database_body.

(** *** insert_into_database *)

Definition str_nat (n : nat) : string :=
  NilEmpty.string_of_uint (Nat.to_uint n).

(** [sql_query], built from the table and column names. *)
Definition insert_sql (table_name : string) (column_names : list string)
  : string :=
  let column_names_joined := String.concat ", " column_names in
  let value_placeholders :=
    String.concat ", " (repeat "?" (length column_names)) in
  "INSERT INTO " ++ table_name ++ " (" ++ column_names_joined
    ++ ") VALUES (" ++ value_placeholders ++ ")".

Record insert_locals : Type :=
  mkInsertLocals { rows_inserted : nat; rows_failed : nat }.

Definition incr_rows_inserted (l : insert_locals) : insert_locals :=
  mkInsertLocals (rows_inserted l + 1) (rows_failed l).

Definition incr_rows_failed (l : insert_locals) : insert_locals :=
  mkInsertLocals (rows_inserted l) (rows_failed l + 1).

Definition set_rows_failed (n : nat) (l : insert_locals) : insert_locals :=
  mkInsertLocals (rows_inserted l) n.

Definition msg_integrity_error (index : nat) (ex : exn) (row : tuple)
  : string :=
  "Row " ++ str_nat index ++ " failed to insert due to an integrity error: "
    ++ str_exn ex ++ ". Row data: " ++ str_tuple X row.

Definition msg_general_error (index : nat) (ex : exn) (row : tuple)
  : string :=
  "Row " ++ str_nat index
    ++ " failed to insert due to a general database error: "
    ++ str_exn ex ++ ". Row data: " ++ str_tuple X row.

Definition msg_tally (l : insert_locals) : string :=
  "rows_inserted: " ++ str_nat (rows_inserted l) ++ ", rows_failed: "
    ++ str_nat (rows_failed l).

Definition msg_unexpected (ex : exn) : string :=
  "Unexpected database error occurred: " ++ str_exn ex.

(** The body of the [for] loop: one row, its own [try]. *)
Definition insert_row (sql_query : string) (index : nat) (row : tuple)
  : M E insert_locals unit :=
  try_except
    (do_call (cursor_execute sql_query (Some row)) ;;;
     do_call connection_commit ;;;
     set_locals incr_rows_inserted)
    [ (is_sqlite3_IntegrityError,
       fun ex =>
         custom_logger ERROR_LOG_LEVEL (msg_integrity_error index ex row) ;;;
         set_locals incr_rows_failed);
      (is_sqlite3_Error,
       fun ex =>
         custom_logger ERROR_LOG_LEVEL (msg_general_error index ex row) ;;;
         set_locals incr_rows_failed) ].

(** [for index, row in enumerate(data, start=index)] *)
Fixpoint insert_rows (sql_query : string) (index : nat) (data : list tuple)
  : M E insert_locals unit :=
  match data with
  | [] => ret tt
  | row :: rest =>
      insert_row sql_query index row ;;;
      insert_rows sql_query (S index) rest
  end.

Definition insert_into_database_body (table_name : string)
           (column_names : list string) (data : list tuple)
  : M E insert_locals (nat * nat) :=
  try_except
    (let sql_query := insert_sql table_name column_names in
     with_connect (DB_LOCAL_PATH K)
       (do_call connection_cursor ;;;
        insert_rows sql_query 1 data) ;;;
     l <- get_locals ;;
     custom_logger INFO_LOG_LEVEL (msg_tally l))
    [ (is_sqlite3_Error,
       fun ex =>
         custom_logger ERROR_LOG_LEVEL (msg_unexpected ex) ;;;
         set_locals (set_rows_failed (length data))) ] ;;;
  l <- get_locals ;;
  ret (rows_inserted l, rows_failed l).

Definition insert_into_database (table_name : string)
           (column_names : list string) (data : list tuple)
  : world E -> world E * result (nat * nat) :=
  run_function (mkInsertLocals 0 0)
               (insert_into_database_body table_name column_names data).

(** *** execute_select_query *)

(** [if params:] holds for a tuple that is given and not empty. *)
Definition truthy_params (params : option tuple) : bool :=
  match params with
  | Some (_ :: _) => true
  | _ => false
  end.

Definition msg_query_failed (query : string) (ex : exn) : string :=
  "Query " ++ query ++ " failed, database error: " ++ str_exn ex ++ ".".

(** The local variable [result] is [None] or the list [fetchall] gave. *)
Definition execute_select_query_body (query : string)
           (params : option tuple)
  : M E (option (list tuple)) (option (list tuple)) :=
  try_except
    (with_connect (DB_LOCAL_PATH K)
       (do_call connection_cursor ;;;
        (if truthy_params params
         then do_call (cursor_execute query params)
         else do_call (cursor_execute query None)) ;;;
        fetched <- do_call cursor_fetchall ;;
        set_locals (fun _ => Some (rows_of fetched))))
    [ (is_sqlite3_Error,
       fun ex =>
         custom_logger ERROR_LOG_LEVEL (msg_query_failed query ex)) ] ;;;
  get_locals.

Definition execute_select_query (query : string) (params : option tuple)
  : world E -> world E * result (option (list tuple)) :=
  run_function None (execute_select_query_body query params).

(** *** _get_s3_client, download_database_from_s3, upload_database_to_s3 *)

(** The object [aws_session.client("s3")] returns. *)
Inductive s3_client : Type := S3Client.

(** Truth value of what [os.environ.get] returns: [None] and the empty
    string are false. *)
Definition truthy_str (v : option string) : bool :=
  match v with
  | Some s => negb (s =? "")
  | None => false
  end.

Definition str_of (v : option string) : string :=
  match v with Some s => s | None => "" end.

Definition msg_missing (name : string) : string :=
  "Missing " ++ name ++ " environment variable.".

Definition msg_unable : string :=
  "Unable to create S3 client. Skipping operation.".

(** [if not v: custom_logger(ERROR_LOG_LEVEL, "Missing ...")] *)
Definition log_if_missing {L} (v : option string) (name : string)
  : M E L unit :=
  if negb (truthy_str v)
  then custom_logger ERROR_LOG_LEVEL (msg_missing name)
  else ret tt.

Definition _get_s3_client {L} : M E L (option s3_client) :=
  AWS_ACCESS_KEY_ID <- os_environ_get "AWS_ACCESS_KEY_ID" ;;
  AWS_SECRET_ACCESS_KEY <- os_environ_get "AWS_SECRET_ACCESS_KEY" ;;
  AWS_REGION <- os_environ_get "AWS_REGION" ;;
  if truthy_str AWS_ACCESS_KEY_ID && truthy_str AWS_SECRET_ACCESS_KEY
     && truthy_str AWS_REGION
  then
    do_call (boto3_Session (str_of AWS_ACCESS_KEY_ID)
                           (str_of AWS_SECRET_ACCESS_KEY)
                           (str_of AWS_REGION)) ;;;
    do_call (session_client "s3") ;;;
    ret (Some S3Client)
  else
    log_if_missing AWS_ACCESS_KEY_ID "AWS_ACCESS_KEY_ID" ;;;
    log_if_missing AWS_SECRET_ACCESS_KEY "AWS_SECRET_ACCESS_KEY" ;;;
    log_if_missing AWS_REGION "AWS_REGION" ;;;
    custom_logger ERROR_LOG_LEVEL msg_unable ;;;
    ret None.

Definition msg_downloaded : string :=
  "Successfully downloaded " ++ SQLITE_DB_NAME K ++ " from s3://"
    ++ S3_BUCKET_NAME K ++ "/" ++ SQLITE_DB_NAME K ++ " to "
    ++ DB_LOCAL_PATH K.

Definition msg_download_failed (ex : exn) : string :=
  "Failed to download database from S3: " ++ str_exn ex.

Definition msg_uploaded : string :=
  "Successfully uploaded " ++ DB_LOCAL_PATH K ++ " to s3://"
    ++ S3_BUCKET_NAME K ++ "/" ++ SQLITE_DB_NAME K.

Definition msg_upload_failed (ex : exn) : string :=
  "Failed to upload database to S3: " ++ str_exn ex.

Definition download_database_from_s3_body : M E unit unit :=
  s3_client <- _get_s3_client ;;
  match s3_client with
  | Some _ =>
      ensure_data_directories_exist ;;;
      try_except
        (do_call (s3_download_file (S3_BUCKET_NAME K) (SQLITE_DB_NAME K)
                                   (DB_LOCAL_PATH K)) ;;;
         custom_logger INFO_LOG_LEVEL msg_downloaded)
        [ (is_Exception,
           fun ex =>
             custom_logger ERROR_LOG_LEVEL (msg_download_failed ex)) ]
  | None => ret tt
  end.

Definition download_database_from_s3 : world E -> world E * result unit :=
  run_function tt download_database_from_s3_body.

(** [try ... except Exception ... else ...]: the [else] suite runs when
    the [try] suite raised nothing, outside of the handler's reach. *)
Definition upload_database_to_s3_body : M E unit unit :=
  s3_client <- _get_s3_client ;;
  match s3_client with
  | Some _ =>
      uploaded <-
        try_except
          (do_call (s3_upload_file (DB_LOCAL_PATH K) (S3_BUCKET_NAME K)
                                   (SQLITE_DB_NAME K)) ;;;
           ret true)
          [ (is_Exception,
             fun ex =>
               custom_logger ERROR_LOG_LEVEL (msg_upload_failed ex) ;;;
               ret false) ] ;;
      if uploaded
      then custom_logger INFO_LOG_LEVEL msg_uploaded
      else ret tt
  | None => ret tt
  end.

Definition upload_database_to_s3 : world E -> world E * result unit :=
  run_function tt upload_database_to_s3_body.

End DbUtilities.

(** ** What the collaborators do during a run

    The statements below speak about a run through what the collaborators
    answered in it.  These definitions replay the calls on the external
    state alone, without the module's handlers, counters or log lines. *)

Section Driver.
Context {E : Type} (X : Externals E).

(** Calls made one after the other until one raises; the last reply. *)
Fixpoint perform_all (calls : list call) (e : E) : E * result reply :=
  match calls with
  | [] => (e, Ok RNone)
  | c :: rest =>
      match perform X c e with
      | (e1, Raise ex) => (e1, Raise ex)
      | (e1, Ok r) =>
          match rest with
          | [] => (e1, Ok r)
          | _ :: _ => perform_all rest e1
          end
      end
  end.

(** Calls made on a connection opened for them; when one of them raises,
    the connection is rolled back, and an exception of the rollback
    replaces the first one.  No connection, no rollback. *)
Definition in_connection (path : string) (calls : list call) (e : E)
  : E * result reply :=
  match perform X (sqlite3_connect path) e with
  | (e0, Raise ex) => (e0, Raise ex)
  | (e0, Ok _) =>
      match perform_all calls e0 with
      | (e1, Ok r) => (e1, Ok r)
      | (e1, Raise ex) =>
          match perform X connection_rollback e1 with
          | (e2, Ok _) => (e2, Raise ex)
          | (e2, Raise ex2) => (e2, Raise ex2)
          end
      end
  end.

(** What [Connection.__exit__] does on the external state when the block
    ended without an exception: the calls it makes and how it ends.  A
    commit; when the commit raises, a rollback, after which the exception
    of the commit goes on, or that of the rollback when it raises too. *)
Definition leave_connection (e : E)
  : E * (list call * result reply) :=
  match perform X connection_commit e with
  | (e1, Ok r) => (e1, ([connection_commit], Ok r))
  | (e1, Raise ex) =>
      match perform X connection_rollback e1 with
      | (e2, Ok _) =>
          (e2, ([connection_commit; connection_rollback], Raise ex))
      | (e2, Raise ex2) =>
          (e2, ([connection_commit; connection_rollback], Raise ex2))
      end
  end.

(** What became of one row of a batch. *)
Inductive row_outcome : Type :=
| RowInserted                 (* executed and committed *)
| RowFailed (ex : exn)        (* a database error, [sqlite3.Error] *)
| RowEscaped (ex : exn).      (* an exception that is no database error *)

Definition classify (ex : exn) : row_outcome :=
  if is_sqlite3_Error ex then RowFailed ex else RowEscaped ex.

Definition attempt_row (sql : string) (row : tuple) (e : E)
  : E * row_outcome :=
  match perform X (cursor_execute sql (Some row)) e with
  | (e1, Raise ex) => (e1, classify ex)
  | (e1, Ok _) =>
      match perform X connection_commit e1 with
      | (e2, Raise ex) => (e2, classify ex)
      | (e2, Ok _) => (e2, RowInserted)
      end
  end.

(** The outcomes of the rows of a batch, in order, up to and including
    the first one that escapes. *)
Fixpoint row_outcomes (sql : string) (data : list tuple) (e : E)
  : E * list row_outcome :=
  match data with
  | [] => (e, [])
  | row :: rest =>
      let '(e1, o) := attempt_row sql row e in
      match o with
      | RowEscaped _ => (e1, [o])
      | _ => let '(e2, os) := row_outcomes sql rest e1 in (e2, o :: os)
      end
  end.
End Driver.

Definition is_inserted (o : row_outcome) : bool :=
  match o with RowInserted => true | _ => false end.

Definition is_failed (o : row_outcome) : bool :=
  match o with RowFailed _ => true | _ => false end.


Definition count (p : row_outcome -> bool) (outs : list row_outcome) : nat :=
  length (filter p outs).

(** ** Reading a trace *)

(** The calls of a trace, in order. *)
Fixpoint calls_of (tr : list event) : list call :=
  match tr with
  | [] => []
  | Called c :: rest => c :: calls_of rest
  | Logged _ _ :: rest => calls_of rest
  end.

(** The log lines of a trace, in order. *)
Fixpoint lines_of (tr : list event) : list (log_level * string) :=
  match tr with
  | [] => []
  | Called _ :: rest => lines_of rest
  | Logged level message :: rest => (level, message) :: lines_of rest
  end.

(** The rows handed to [cursor.execute], in order. *)
Fixpoint executed_rows (cs : list call) : list tuple :=
  match cs with
  | [] => []
  | cursor_execute _ (Some row) :: rest => row :: executed_rows rest
  | _ :: rest => executed_rows rest
  end.

Section FailureLines.
Context {E : Type} (X : Externals E).

(** The line a failed row leaves in the log. *)
Definition failure_line (index : nat) (row : tuple) (o : row_outcome)
  : list (log_level * string) :=
  match o with
  | RowFailed ex =>
      if is_sqlite3_IntegrityError ex
      then [(ERROR_LOG_LEVEL, msg_integrity_error X index ex row)]
      else [(ERROR_LOG_LEVEL, msg_general_error X index ex row)]
  | _ => []
  end.

(** The lines a batch leaves, row [index] being the first of [data]. *)
Fixpoint failure_lines (index : nat) (data : list tuple)
         (outs : list row_outcome) : list (log_level * string) :=
  match data, outs with
  | row :: rest, o :: os =>
      failure_line index row o ++ failure_lines (S index) rest os
  | _, _ => []
  end.
End FailureLines.

Section Protocols.
Context {E : Type} (X : Externals E) (K : constants).

(** The calls [execute_select_query] makes on its connection. *)
Definition select_calls (query : string) (params : option tuple)
  : list call :=
  [ connection_cursor;
    cursor_execute query (if truthy_params params then params else None);
    cursor_fetchall ].

(** The statement of [execute_select_query] run on its connection. *)
Definition query_attempt (query : string) (params : option tuple) (e : E)
  : E * result reply :=
  in_connection X (DB_LOCAL_PATH K) (select_calls query params) e.

(** The steps of [create_database] after the directories are there: the
    schema file is read and its text run as a script. *)
Definition schema_steps (e : E) : E * result reply :=
  match perform X (open_read (CREATE_TABLE_DEFINITIONS_FILE_PATH K)) e with
  | (e1, Raise ex) => (e1, Raise ex)
  | (e1, Ok sql_file) =>
      perform_all X
        [ sqlite3_connect (DB_LOCAL_PATH K);
          connection_cursor;
          cursor_executescript (text_of sql_file);
          connection_commit;
          connection_close ] e1
  end.
End Protocols.

(** The three variables [_get_s3_client] reads. *)
Definition credential_names : list string :=
  [ "AWS_ACCESS_KEY_ID"; "AWS_SECRET_ACCESS_KEY"; "AWS_REGION" ].

(** ** Two collaborators to run the module on *)

(** [str(row)] for the runs below; quoting is kept simple. *)
Definition show_value (v : value) : string :=
  match v with
  | VNone => "None"
  | VInt z => NilEmpty.string_of_int (Z.to_int z)
  | VStr s => "'" ++ s ++ "'"
  end.

Definition show_tuple (row : tuple) : string :=
  match row with
  | [v] => "(" ++ show_value v ++ ",)"
  | _ => "(" ++ String.concat ", " (map show_value row) ++ ")"
  end.

Fixpoint lookup (name : string) (vars : list (string * string))
  : option string :=
  match vars with
  | [] => None
  | (n, v) :: rest => if n =? name then Some v else lookup name rest
  end.

(** *** A scripted collaborator

    Every call takes the next answer of a script; past its end every call
    returns [None]. *)
Module Replay.
Record state : Type :=
  mkState { script : list (result reply); environ : list (string * string) }.

Definition step (c : call) (e : state) : state * result reply :=
  match script e with
  | [] => (e, Ok RNone)
  | r :: rest => (mkState rest (environ e), r)
  end.

Definition externals : Externals state :=
  {| perform := step;
     environ_get := fun name e => lookup name (environ e);
     str_tuple := show_tuple |}.

Definition start (answers : list (result reply))
           (vars : list (string * string)) : world state :=
  mkWorld (mkState answers vars) [].
End Replay.

(** *** A table with a primary key

    One table whose first column is its primary key.  A statement that
    starts with INSERT stores its row, unless the key is taken; any other
    statement selects the rows whose key is the first parameter, or all
    rows without parameters.  The file may be out of reach. *)
Module KeyedTable.
Record state : Type :=
  mkState { reachable : bool;
            stored : list tuple;
            selected : list tuple;
            environ : list (string * string) }.

Definition value_eqb (a b : value) : bool :=
  match a, b with
  | VNone, VNone => true
  | VInt x, VInt y => Z.eqb x y
  | VStr x, VStr y => String.eqb x y
  | _, _ => false
  end.

Definition has_key (k : value) (row : tuple) : bool :=
  match row with
  | k' :: _ => value_eqb k k'
  | [] => false
  end.

Definition unable_to_open : exn :=
  mkExn sqlite3_OperationalError "unable to open database file".

Definition unique_failed : exn :=
  mkExn sqlite3_IntegrityError "UNIQUE constraint failed: t.id".

Definition no_bindings : exn :=
  mkExn sqlite3_ProgrammingError
        "Incorrect number of bindings supplied.".

Definition insert (row : tuple) (e : state) : state * result reply :=
  match row with
  | [] => (e, Raise no_bindings)
  | k :: _ =>
      if existsb (has_key k) (stored e)
      then (e, Raise unique_failed)
      else (mkState (reachable e) (stored e ++ [row]) (selected e)
                    (environ e), Ok RNone)
  end.

Definition select (params : option tuple) (e : state)
  : state * result reply :=
  let found :=
    match params with
    | Some (k :: _) => filter (has_key k) (stored e)
    | _ => stored e
    end in
  (mkState (reachable e) (stored e) found (environ e), Ok RNone).

Definition step (c : call) (e : state) : state * result reply :=
  match c with
  | sqlite3_connect _ =>
      if reachable e then (e, Ok RNone) else (e, Raise unable_to_open)
  | cursor_execute sql params =>
      if String.prefix "INSERT" sql
      then insert (match params with Some row => row | None => [] end) e
      else select params e
  | cursor_fetchall => (e, Ok (RRows (selected e)))
  | _ => (e, Ok RNone)
  end.

Definition externals : Externals state :=
  {| perform := step;
     environ_get := fun name e => lookup name (environ e);
     str_tuple := show_tuple |}.

Definition start (ok : bool) (rows : list tuple)
           (vars : list (string * string)) : world state :=
  mkWorld (mkState ok rows [] vars) [].
End KeyedTable.

(** The constants of the runs below. *)
Definition sample_constants : constants :=
  {| EXTRACTED_DATA_DIR := "data/extracted";
     GENERATED_DATA_DIR := "data/generated";
     CREATE_TABLE_DEFINITIONS_FILE_PATH := "sql/create_tables.sql";
     DB_LOCAL_PATH := "data/generated/etl.db";
     S3_BUCKET_NAME := "etl-bucket";
     SQLITE_DB_NAME := "etl.db" |}.

(** ** What a run leaves behind, said from the outcomes *)

(** The counters after a row. *)
Definition after_row (o : row_outcome) (l : insert_locals) : insert_locals :=
  match o with
  | RowInserted => incr_rows_inserted l
  | RowFailed _ => incr_rows_failed l
  | RowEscaped _ => l
  end.

(** How the loop body ends on a row. *)
Definition row_result (o : row_outcome) : result unit :=
  match o with
  | RowEscaped ex => Raise ex
  | _ => Ok tt
  end.

(** The exception that leaves the loop, if one does. *)
Fixpoint escaping (outs : list row_outcome) : option exn :=
  match outs with
  | [] => None
  | RowEscaped ex :: _ => Some ex
  | _ :: rest => escaping rest
  end.

Definition loop_result (outs : list row_outcome) : result unit :=
  match escaping outs with
  | Some ex => Raise ex
  | None => Ok tt
  end.

(** The exception that leaves [Connection.__exit__] after a commit that
    raised [ex], [rb] being the answer of the rollback that follows. *)
Definition leaving_exception (ex : exn) (rb : result reply) : exn :=
  match rb with
  | Ok _ => ex
  | Raise ex2 => ex2
  end.

(** The events a run added to the trace it started from. *)
Definition events_since {E : Type} (before after : world E) : list event :=
  skipn (length (trace before)) (trace after).

(** How a batch that met no escape ends, from what
    [Connection.__exit__] did after the loop (its calls [cs], its end
    [rx]): the events the call adds and what it returns. *)
Definition batch_end (outs : list row_outcome) (len_data : nat)
           (cs : list call) (rx : result reply)
  : list event * result (nat * nat) :=
  let inserted := count is_inserted outs in
  let failed := count is_failed outs in
  match rx with
  | Ok _ =>
      ((map Called cs
        ++ [Logged INFO_LOG_LEVEL
                   (msg_tally (mkInsertLocals inserted failed))])%list,
       Ok (inserted, failed))
  | Raise ex =>
      if is_sqlite3_Error ex
      then ((map Called cs
             ++ [Logged ERROR_LOG_LEVEL (msg_unexpected ex)])%list,
            Ok (inserted, len_data))
      else (map Called cs, Raise ex)
  end.

(** The batch of the end-to-end scenario: the third row repeats the key of
    the first. *)
Definition three_rows : list tuple :=
  [ [VStr "a"; VStr "1"]; [VStr "b"; VStr "2"]; [VStr "a"; VStr "3"] ].

(** An empty table, a table out of reach, a table with two rows. *)
Definition fresh_table : world KeyedTable.state :=
  KeyedTable.start true [] [].

Definition unreachable_table : world KeyedTable.state :=
  KeyedTable.start false [] [].

Definition stocked_table : world KeyedTable.state :=
  KeyedTable.start true
    [ [VStr "a"; VStr "1"]; [VStr "b"; VStr "2"] ] [].

(** Process environments: the secret key unset; the region set to the
    empty string; the region unset. *)
Definition secret_unset : world KeyedTable.state :=
  KeyedTable.start true []
    [ ("AWS_ACCESS_KEY_ID", "key"); ("AWS_REGION", "us-east-1") ].

Definition region_empty : world KeyedTable.state :=
  KeyedTable.start true []
    [ ("AWS_ACCESS_KEY_ID", "key"); ("AWS_SECRET_ACCESS_KEY", "secret");
      ("AWS_REGION", "") ].

Definition region_unset : world KeyedTable.state :=
  KeyedTable.start true []
    [ ("AWS_ACCESS_KEY_ID", "key"); ("AWS_SECRET_ACCESS_KEY", "secret") ].

(** A file system that refuses to create the first data directory. *)
Definition permission_denied : exn :=
  mkExn PermissionError "[Errno 13] Permission denied: 'data/extracted'".

Definition no_directories : world Replay.state :=
  Replay.start [ Raise permission_denied ] [].

(** A two-row batch and a run in which the database file is locked by
    another process from the second commit on: the commit of the second
    row is refused, and so is the commit that closes the connection. *)
Definition two_rows : list tuple :=
  [ [VStr "a"; VStr "1"]; [VStr "b"; VStr "2"] ].

Definition database_locked : exn :=
  mkExn sqlite3_OperationalError "database is locked".

Definition locked_at_commit : world Replay.state :=
  Replay.start
    [ Ok RNone;                 (* sqlite3.connect *)
      Ok RNone;                 (* cursor *)
      Ok RNone; Ok RNone;       (* row 1: execute, commit *)
      Ok RNone;                 (* row 2: execute *)
      Raise database_locked;    (* row 2: commit *)
      Raise database_locked;    (* Connection.__exit__: commit *)
      Ok RNone ]                (* Connection.__exit__: rollback *)
    [].

Section Credentials.
Context {E : Type} (X : Externals E).

(** A variable that is unset or empty. *)
Definition missing (name : string) (e : E) : bool :=
  negb (truthy_str (environ_get X name e)).

(** The three variables are set and not empty. *)
Definition all_credentials (e : E) : bool :=
  forallb (fun name => negb (missing name e)) credential_names.

(** One line per missing variable, in the order they are checked, then
    the line that says the operation is skipped. *)
Definition skip_lines (e : E) : list event :=
  flat_map
    (fun name =>
       if missing name e
       then [Logged ERROR_LOG_LEVEL (msg_missing name)]
       else [])
    credential_names
  ++ [Logged ERROR_LOG_LEVEL msg_unable].
End Credentials.

(** ** Further readings of a run *)

(** The number of question marks of a text. *)
Fixpoint question_marks (s : string) : nat :=
  match s with
  | EmptyString => 0
  | String c rest =>
      (if Ascii.eqb c "?"%char then 1 else 0) + question_marks rest
  end.

(** The calls a row that is inserted takes: its statement, then a commit. *)
Definition row_calls (sql : string) (row : tuple) : list call :=
  [ cursor_execute sql (Some row); connection_commit ].

(** The calls that make the S3 client out of the environment of [e]. *)
Definition client_calls {E : Type} (X : Externals E) (e : E) : list call :=
  [ boto3_Session (str_of (environ_get X "AWS_ACCESS_KEY_ID" e))
                  (str_of (environ_get X "AWS_SECRET_ACCESS_KEY" e))
                  (str_of (environ_get X "AWS_REGION" e));
    session_client "s3" ].

(** The calls that give a connection back: [close] and [rollback]. *)
Definition gives_back (c : call) : bool :=
  match c with
  | connection_close | connection_rollback => true
  | _ => false
  end.

Definition is_close (c : call) : bool :=
  match c with
  | connection_close => true
  | _ => false
  end.

(** The transfers to and from the object store. *)
Definition is_transfer (c : call) : bool :=
  match c with
  | s3_download_file _ _ _ | s3_upload_file _ _ _ => true
  | _ => false
  end.

Definition is_makedirs (c : call) : bool :=
  match c with
  | os_makedirs _ => true
  | _ => false
  end.

(** A process environment with the three credentials. *)
Definition with_credentials : list (string * string) :=
  [ ("AWS_ACCESS_KEY_ID", "key"); ("AWS_SECRET_ACCESS_KEY", "secret");
    ("AWS_REGION", "us-east-1") ].

Definition signed_in : world KeyedTable.state :=
  KeyedTable.start true [] with_credentials.

(** Runs of the scripted collaborator: a row whose integer does not fit
    SQLite; a cursor that cannot be made; a transfer that fails; a client
    that cannot be made; a second data directory that cannot be made; a
    schema script that does not parse; a closing commit that is refused
    after a statement. *)
Definition int_too_large : exn :=
  mkExn OverflowError "Python int too large to convert to SQLite INTEGER".

Definition big_rows : list tuple :=
  [ [VStr "a"; VInt 1]; [VStr "b"; VInt (2 ^ 63)]; [VStr "c"; VInt 3] ].

Definition overflow_on_second_row : world Replay.state :=
  Replay.start
    [ Ok RNone; Ok RNone;            (* connect, cursor *)
      Ok RNone; Ok RNone;            (* row 1: execute, commit *)
      Raise int_too_large;           (* row 2: execute *)
      Ok RNone ]                     (* Connection.__exit__: rollback *)
    [].

Definition no_cursor : world Replay.state :=
  Replay.start
    [ Ok RNone; Raise database_locked; Ok RNone ] [].

Definition no_such_key : exn :=
  mkExn OtherException
        "An error occurred (404) when calling the HeadObject operation: Not Found".

Definition transfer_fails_after_directories : world Replay.state :=
  Replay.start
    [ Ok RNone; Ok RNone; Ok RNone; Ok RNone; Raise no_such_key ]
    with_credentials.

Definition transfer_fails : world Replay.state :=
  Replay.start [ Ok RNone; Ok RNone; Raise no_such_key ] with_credentials.

Definition unknown_service : exn :=
  mkExn OtherException "Unknown service: 's3'".

Definition no_client : world Replay.state :=
  Replay.start [ Ok RNone; Raise unknown_service ] with_credentials.

Definition second_directory_denied : world Replay.state :=
  Replay.start
    [ Ok RNone; Ok RNone; Ok RNone; Raise permission_denied ]
    with_credentials.

Definition syntax_error : exn :=
  mkExn sqlite3_OperationalError "near CREAT: syntax error".

Definition bad_schema : world Replay.state :=
  Replay.start
    [ Ok RNone; Ok RNone;            (* os.makedirs, twice *)
      Ok (RText "CREAT TABLE t;");   (* the schema file *)
      Ok RNone; Ok RNone;            (* connect, cursor *)
      Raise syntax_error ]           (* executescript *)
    [].

Definition good_schema : world Replay.state :=
  Replay.start
    [ Ok RNone; Ok RNone;
      Ok (RText "CREATE TABLE t (id TEXT PRIMARY KEY, val TEXT);") ]
    [].

Definition locked_after_fetch : world Replay.state :=
  Replay.start
    [ Ok RNone; Ok RNone; Ok RNone;          (* connect, cursor, execute *)
      Ok (RRows [ [VStr "c"] ]);             (* fetchall *)
      Raise database_locked;                 (* Connection.__exit__: commit *)
      Ok RNone ]                             (* Connection.__exit__: rollback *)
    [].

(** A statement that writes and returns rows: it leaves a transaction for
    the closing commit to end. *)
Definition insert_returning : string :=
  "INSERT INTO t (id, val) VALUES ('c', '3') RETURNING id".

(** A query whose parameter does not fit SQLite. *)
Definition overflow_on_execute : world Replay.state :=
  Replay.start
    [ Ok RNone; Ok RNone;       (* connect, cursor *)
      Raise int_too_large;      (* execute *)
      Ok RNone ]                (* Connection.__exit__: rollback *)
    [].

(** ** Proofs *)

Open Scope list_scope.

Lemma calls_of_app (a b : list event) :
  calls_of (a ++ b) = calls_of a ++ calls_of b.
Proof.
  induction a as [|ev a IH]; simpl; [reflexivity|].
  destruct ev; simpl; rewrite IH; reflexivity.
Qed.

Lemma lines_of_app (a b : list event) :
  lines_of (a ++ b) = lines_of a ++ lines_of b.
Proof.
  induction a as [|ev a IH]; simpl; [reflexivity|].
  destruct ev; simpl; rewrite IH; reflexivity.
Qed.

Lemma executed_rows_app (a b : list call) :
  executed_rows (a ++ b) = executed_rows a ++ executed_rows b.
Proof.
  induction a as [|c a IH]; simpl; [reflexivity|].
  destruct c as [| | | |sql [row|]| | | | | | | | |]; simpl; rewrite IH;
    reflexivity.
Qed.

Lemma count_cons (p : row_outcome -> bool) (o : row_outcome) outs :
  count p (o :: outs) = (if p o then 1 else 0) + count p outs.
Proof. unfold count; simpl; destruct (p o); reflexivity. Qed.

(** An integrity error is a database error. *)
Lemma IntegrityError_is_Error (ex : exn) :
  is_sqlite3_IntegrityError ex = true -> is_sqlite3_Error ex = true.
Proof.
  unfold is_sqlite3_IntegrityError, is_sqlite3_Error.
  destruct (exn_class_of ex); intro H; try reflexivity; discriminate H.
Qed.

(** Without an escape, the rows inserted and the rows failed are all the
    rows. *)
Lemma count_partition (outs : list row_outcome) :
  escaping outs = None ->
  count is_inserted outs + count is_failed outs = length outs.
Proof.
  induction outs as [|o outs IH]; simpl; intro H; [reflexivity|].
  rewrite !count_cons.
  destruct o; simpl; try discriminate H; specialize (IH H); lia.
Qed.

Section InsertLoop.
Context {E : Type} (X : Externals E) (K : constants).

Ltac unfold_monad :=
  unfold try_except, bind, ret, raise, do_call, custom_logger, set_locals,
    get_locals; simpl.

(** One turn of the loop does to the counters, the world and the log what
    the row's outcome says. *)
Lemma insert_row_run (sql : string) (index : nat) (row : tuple)
      (l : insert_locals) (w : world E) (e1 : E) (o : row_outcome) :
  attempt_row X sql row (ext w) = (e1, o) ->
  exists mid,
    insert_row X sql index row (l, w)
    = ((after_row o l, mkWorld e1 (trace w ++ mid)), row_result o)
    /\ executed_rows (calls_of mid) = [row]
    /\ lines_of mid = failure_line X index row o.
Proof.
  unfold attempt_row, insert_row, classify. unfold_monad.
  destruct (perform X (cursor_execute sql (Some row)) (ext w))
    as [e1' [r|ex]]; simpl.
  - destruct (perform X connection_commit e1') as [e2 [r2|ex]]; simpl.
    + intro H; inversion H; subst; clear H.
      exists [Called (cursor_execute sql (Some row));
              Called connection_commit].
      rewrite <- app_assoc. simpl. auto.
    + destruct (is_sqlite3_IntegrityError ex) eqn:Hi.
      * rewrite (IntegrityError_is_Error ex Hi).
        intro H; inversion H; subst; clear H. simpl.
        exists [Called (cursor_execute sql (Some row));
                Called connection_commit;
                Logged ERROR_LOG_LEVEL (msg_integrity_error X index ex row)].
        rewrite <- !app_assoc. simpl. rewrite Hi. auto.
      * destruct (is_sqlite3_Error ex) eqn:He;
          intro H; inversion H; subst; clear H; simpl.
        -- exists [Called (cursor_execute sql (Some row));
                   Called connection_commit;
                   Logged ERROR_LOG_LEVEL
                          (msg_general_error X index ex row)].
           rewrite <- !app_assoc. simpl. rewrite Hi. auto.
        -- exists [Called (cursor_execute sql (Some row));
                   Called connection_commit].
           rewrite <- !app_assoc. simpl. auto.
  - destruct (is_sqlite3_IntegrityError ex) eqn:Hi.
    + rewrite (IntegrityError_is_Error ex Hi).
      intro H; inversion H; subst; clear H. simpl.
      exists [Called (cursor_execute sql (Some row));
              Logged ERROR_LOG_LEVEL (msg_integrity_error X index ex row)].
      rewrite <- !app_assoc. simpl. rewrite Hi. auto.
    + destruct (is_sqlite3_Error ex) eqn:He;
        intro H; inversion H; subst; clear H; simpl.
      * exists [Called (cursor_execute sql (Some row));
                Logged ERROR_LOG_LEVEL (msg_general_error X index ex row)].
        rewrite <- !app_assoc. simpl. rewrite Hi. auto.
      * exists [Called (cursor_execute sql (Some row))]. auto.
Qed.

(** The loop does what the outcomes of its rows say: the counters grow by
    the rows inserted and the rows failed, every row up to the end (or up
    to an escape) is handed to [execute] in order, and every failed row
    leaves its line. *)
Lemma insert_rows_run (sql : string) :
  forall (data : list tuple) (index : nat) (l : insert_locals)
         (w : world E) (e' : E) (outs : list row_outcome),
    row_outcomes X sql data (ext w) = (e', outs) ->
    exists mid,
      insert_rows X sql index data (l, w)
      = ((mkInsertLocals (rows_inserted l + count is_inserted outs)
                         (rows_failed l + count is_failed outs),
          mkWorld e' (trace w ++ mid)),
         loop_result outs)
      /\ executed_rows (calls_of mid) = firstn (length outs) data
      /\ lines_of mid = failure_lines X index data outs.
Proof.
  induction data as [|row rest IH]; intros index l w e' outs Hout.
  - simpl in Hout. inversion Hout; subst; clear Hout.
    exists []. destruct l, w; simpl. unfold ret, count; simpl.
    rewrite !Nat.add_0_r, app_nil_r. auto.
  - simpl in Hout.
    destruct (attempt_row X sql row (ext w)) as [e1 o] eqn:Hrow.
    destruct (insert_row_run sql index row l w e1 o Hrow)
      as [mid1 [Hrun [Hex Hlines]]].
    simpl. unfold bind at 1. rewrite Hrun.
    destruct o as [|ex|ex].
    + destruct (row_outcomes X sql rest e1) as [e2 os] eqn:Hrest.
      inversion Hout; subst; clear Hout.
      destruct (IH (S index) (incr_rows_inserted l)
                   (mkWorld e1 (trace w ++ mid1)) e' os Hrest)
        as [mid2 [Hrun2 [Hex2 Hlines2]]].
      exists (mid1 ++ mid2). unfold row_result, after_row. rewrite Hrun2.
      rewrite !count_cons. simpl.
      rewrite calls_of_app, executed_rows_app, lines_of_app.
      rewrite Hex, Hex2, Hlines, Hlines2, <- app_assoc.
      repeat split.
      unfold loop_result; simpl.
      replace (rows_inserted l + 1 + count is_inserted os)
        with (rows_inserted l + S (count is_inserted os)) by lia.
      reflexivity.
    + destruct (row_outcomes X sql rest e1) as [e2 os] eqn:Hrest.
      inversion Hout; subst; clear Hout.
      destruct (IH (S index) (incr_rows_failed l)
                   (mkWorld e1 (trace w ++ mid1)) e' os Hrest)
        as [mid2 [Hrun2 [Hex2 Hlines2]]].
      exists (mid1 ++ mid2). unfold row_result, after_row. rewrite Hrun2.
      rewrite !count_cons. simpl.
      rewrite calls_of_app, executed_rows_app, lines_of_app.
      rewrite Hex, Hex2, Hlines, Hlines2, <- app_assoc.
      repeat split.
      unfold loop_result; simpl.
      replace (rows_failed l + 1 + count is_failed os)
        with (rows_failed l + S (count is_failed os)) by lia.
      reflexivity.
    + inversion Hout; subst; clear Hout.
      exists mid1. simpl. unfold loop_result, count; simpl.
      rewrite !Nat.add_0_r, Hex, Hlines.
      destruct l, rest; auto.
Qed.

(** Without an escape every row of the batch has its outcome. *)
Lemma row_outcomes_length (sql : string) :
  forall (data : list tuple) (e e' : E) (outs : list row_outcome),
    row_outcomes X sql data e = (e', outs) ->
    escaping outs = None ->
    length outs = length data.
Proof.
  induction data as [|row rest IH]; intros e e' outs Hout Hesc.
  - simpl in Hout. inversion Hout; reflexivity.
  - simpl in Hout.
    destruct (attempt_row X sql row e) as [e1 o].
    destruct o as [|ex|ex].
    + destruct (row_outcomes X sql rest e1) as [e2 os] eqn:Hrest.
      inversion Hout; subst; clear Hout. simpl in *.
      f_equal. eapply IH; eauto.
    + destruct (row_outcomes X sql rest e1) as [e2 os] eqn:Hrest.
      inversion Hout; subst; clear Hout. simpl in *.
      f_equal. eapply IH; eauto.
    + inversion Hout; subst. discriminate Hesc.
Qed.
End InsertLoop.

(** ** A batch on a connection that opened *)

Section OpenedBatch.
Context {E : Type} (X : Externals E) (K : constants).
Variables (table_name : string) (column_names : list string).
Variables (data : list tuple) (w : world E).
Variables (e1 e2 e3 : E) (r1 r2 : reply) (outs : list row_outcome).

Hypothesis Hconnect :
  perform X (sqlite3_connect (DB_LOCAL_PATH K)) (ext w) = (e1, Ok r1).
Hypothesis Hcursor : perform X connection_cursor e1 = (e2, Ok r2).
Hypothesis Hrows :
  row_outcomes X (insert_sql table_name column_names) data e2 = (e3, outs).
Hypothesis Hcaught : escaping outs = None.

Lemma insert_into_database_opened :
  exists mid,
    executed_rows (calls_of mid) = data
    /\ lines_of mid = failure_lines X 1 data outs
    /\ forall e4 cs rx,
        leave_connection X e3 = (e4, (cs, rx)) ->
        insert_into_database X K table_name column_names data w
        = (mkWorld e4
             (trace w
              ++ Called (sqlite3_connect (DB_LOCAL_PATH K))
              :: Called connection_cursor
              :: mid ++ fst (batch_end outs (length data) cs rx)),
           snd (batch_end outs (length data) cs rx)).
Proof.
  destruct (insert_rows_run X (insert_sql table_name column_names) data 1
              (mkInsertLocals 0 0)
              (mkWorld e2 ((trace w
                            ++ [Called (sqlite3_connect (DB_LOCAL_PATH K))])
                           ++ [Called connection_cursor]))
              e3 outs Hrows) as [mid [Hrun [Hexec Hlines]]].
  exists mid. split; [|split].
  - rewrite Hexec, (row_outcomes_length X _ _ _ _ _ Hrows Hcaught).
    apply firstn_all.
  - exact Hlines.
  - intros e4 cs rx.
    cbv [insert_into_database run_function insert_into_database_body
         try_except bind with_connect do_call leave_connection].
    rewrite Hconnect. simpl ext. rewrite Hcursor. simpl trace.
    rewrite Hrun. unfold loop_result. rewrite Hcaught.
    cbv beta iota. simpl ext. unfold batch_end.
    destruct (perform X connection_commit e3) as [e5 [r5|ex5]]; simpl.
    + intro H. inversion H; subst; clear H. simpl.
      rewrite <- !app_assoc. reflexivity.
    + destruct (perform X connection_rollback e5) as [e6 [r6|ex6]]; simpl;
        intro H; inversion H; subst; clear H; simpl;
        match goal with
        | |- context [is_sqlite3_Error ?x] =>
            destruct (is_sqlite3_Error x); simpl
        end;
        rewrite <- !app_assoc; reflexivity.
Qed.

(** A commit that returns is all [Connection.__exit__] does. *)
Lemma leave_connection_commits (e4 : E) (r4 : reply) :
  perform X connection_commit e3 = (e4, Ok r4) ->
  leave_connection X e3 = (e4, ([connection_commit], Ok r4)).
Proof. unfold leave_connection. intro H. rewrite H. reflexivity. Qed.
End OpenedBatch.


(** One line per failed row. *)
Lemma failure_lines_length {E : Type} (X : Externals E) :
  forall (data : list tuple) (outs : list row_outcome) (index : nat),
    length outs = length data ->
    length (failure_lines X index data outs) = count is_failed outs.
Proof.
  induction data as [|row rest IH]; intros [|o os] index Hlen;
    simpl in *; try discriminate Hlen; try reflexivity.
  rewrite length_app, count_cons, (IH os (S index)) by congruence.
  destruct o as [|ex|ex]; simpl; try reflexivity.
  destruct (is_sqlite3_IntegrityError ex); reflexivity.
Qed.

(** *** The tally of a batch with constraint violations *)


(** *** A connection that cannot be established *)

(** C3. When [sqlite3.connect] itself raises a database error, the batch,
    empty or not, is given up as a whole: no row is attempted, the error is
    logged once and the call returns [(0, len(rows))]. *)
Theorem connection_failure_fails_whole_batch
        {E : Type} (X : Externals E) (K : constants)
        (table_name : string) (column_names : list string)
        (data : list tuple) (w : world E) (e1 : E) (ex : exn) :
  perform X (sqlite3_connect (DB_LOCAL_PATH K)) (ext w) = (e1, Raise ex) ->
  is_sqlite3_Error ex = true ->
  insert_into_database X K table_name column_names data w
  = (mkWorld e1
       (trace w ++ [Called (sqlite3_connect (DB_LOCAL_PATH K));
                    Logged ERROR_LOG_LEVEL (msg_unexpected ex)]),
     Ok (0, length data)).
Proof.
  intros Hconnect Hdb.
  cbv [insert_into_database run_function insert_into_database_body
       try_except bind with_connect do_call].
  rewrite Hconnect. simpl. rewrite Hdb.
  unfold custom_logger, set_locals. simpl.
  rewrite <- app_assoc. reflexivity.
Qed.

(** *** Rows fail one by one *)

(** A row escapes only with an exception that is no database error. *)
Lemma escaping_is_no_database_error {E : Type} (X : Externals E)
      (sql : string) :
  forall (data : list tuple) (e e' : E) (outs : list row_outcome) (ex : exn),
    row_outcomes X sql data e = (e', outs) ->
    escaping outs = Some ex ->
    is_sqlite3_Error ex = false.
Proof.
  induction data as [|row rest IH]; intros e e' outs ex Hout Hesc.
  - simpl in Hout. inversion Hout; subst. discriminate Hesc.
  - simpl in Hout.
    destruct (attempt_row X sql row e) as [e1 o] eqn:Hrow.
    destruct o as [|ex0|ex0].
    + destruct (row_outcomes X sql rest e1) as [e2 os] eqn:Hrest.
      inversion Hout; subst; clear Hout. simpl in Hesc. eauto.
    + destruct (row_outcomes X sql rest e1) as [e2 os] eqn:Hrest.
      inversion Hout; subst; clear Hout. simpl in Hesc. eauto.
    + inversion Hout; subst; clear Hout. simpl in Hesc.
      inversion Hesc; subst; clear Hesc.
      unfold attempt_row, classify in Hrow.
      destruct (perform X (cursor_execute sql (Some row)) e) as [e1' [r|x]].
      * destruct (perform X connection_commit e1') as [e2 [r2|x]];
          [discriminate Hrow|].
        destruct (is_sqlite3_Error x) eqn:Hx; inversion Hrow; subst;
          assumption.
      * destruct (is_sqlite3_Error x) eqn:Hx; inversion Hrow; subst;
          assumption.
Qed.

(** A row that escapes ends the call: the connection is rolled back and
    the exception goes to the caller. *)
Lemma insert_into_database_escaped
      {E : Type} (X : Externals E) (K : constants)
      (table_name : string) (column_names : list string)
      (data : list tuple) (w : world E)
      (e1 e2 e3 e4 : E) (r1 r2 r4 : reply) (ex : exn)
      (outs : list row_outcome) :
  perform X (sqlite3_connect (DB_LOCAL_PATH K)) (ext w) = (e1, Ok r1) ->
  perform X connection_cursor e1 = (e2, Ok r2) ->
  row_outcomes X (insert_sql table_name column_names) data e2 = (e3, outs) ->
  escaping outs = Some ex ->
  perform X connection_rollback e3 = (e4, Ok r4) ->
  exists mid,
    insert_into_database X K table_name column_names data w
    = (mkWorld e4
         (trace w
          ++ Called (sqlite3_connect (DB_LOCAL_PATH K))
          :: Called connection_cursor
          :: mid ++ [Called connection_rollback]),
       Raise ex)
    /\ is_sqlite3_Error ex = false
    /\ executed_rows (calls_of mid) = firstn (length outs) data
    /\ lines_of mid = failure_lines X 1 data outs.
Proof.
  intros Hconnect Hcursor Hrows Hesc Hback.
  pose proof (escaping_is_no_database_error X _ _ _ _ _ _ Hrows Hesc) as Hno.
  destruct (insert_rows_run X (insert_sql table_name column_names) data 1
              (mkInsertLocals 0 0)
              (mkWorld e2 ((trace w
                            ++ [Called (sqlite3_connect (DB_LOCAL_PATH K))])
                           ++ [Called connection_cursor]))
              e3 outs Hrows) as [mid [Hrun [Hexec Hlines]]].
  exists mid. split; [|auto].
  cbv [insert_into_database run_function insert_into_database_body
       try_except bind with_connect do_call].
  rewrite Hconnect. simpl ext. rewrite Hcursor. simpl trace.
  rewrite Hrun. unfold loop_result. rewrite Hesc.
  cbv beta iota. simpl ext. rewrite Hback. simpl. rewrite Hno.
  unfold raise. rewrite <- !app_assoc. reflexivity.
Qed.

(** A handler that always returns leaves to the caller only what its
    clause does not match. *)
Lemma try_except_guarded {E L A : Type} (body : M E L A)
      (matches : exn -> bool) (handler : exn -> M E L A)
      (s s1 : L * world E) (ex : exn) :
  (forall x s0, exists s2 a, handler x s0 = (s2, Ok a)) ->
  try_except body [(matches, handler)] s = (s1, Raise ex) ->
  matches ex = false.
Proof.
  intros Hreturns. unfold try_except.
  destruct (body s) as [s' [a|x]]; [intro H; discriminate H|].
  simpl. destruct (matches x) eqn:Hx.
  - destruct (Hreturns x s') as [s2 [a Hh]]. rewrite Hh.
    intro H; discriminate H.
  - unfold raise. intro H. inversion H; subst. exact Hx.
Qed.

(** No database error leaves [insert_into_database]. *)
Lemma insert_into_database_contains_database_errors
      {E : Type} (X : Externals E) (K : constants)
      (table_name : string) (column_names : list string)
      (data : list tuple) (w : world E) (ex : exn) :
  snd (insert_into_database X K table_name column_names data w) = Raise ex ->
  is_sqlite3_Error ex = false.
Proof.
  unfold insert_into_database, run_function, insert_into_database_body.
  unfold bind at 1.
  match goal with
  | |- context [try_except ?body [(?m, ?h)] ?s] =>
      destruct (try_except body [(m, h)] s) as [[l1 w1] [u|x]] eqn:Htry
  end.
  - unfold bind, get_locals, ret. simpl. intro H; discriminate H.
  - simpl. intro H. inversion H; subst.
    eapply try_except_guarded; [|exact Htry].
    intros x0 [l0 w0]. unfold bind, custom_logger, set_locals. simpl.
    eauto.
Qed.

(** C4, as the code has it.  The handlers of a row name
    [sqlite3.IntegrityError] and [sqlite3.Error].  No database error ever
    leaves the call.  On a connection that opened, when every error a row
    meets is a database error, the rows are handed to [execute] one after
    the other in the order of the batch, all of them, whatever failed
    before; each failed row leaves one ERROR line; and, the connection
    closing, the call returns the number of rows inserted and the number
    of rows failed.  An exception of a row that is no database error is
    not caught: the rows after it are not handed to [execute] and the
    exception reaches the caller. *)
Theorem row_errors_are_isolated
        {E : Type} (X : Externals E) (K : constants)
        (table_name : string) (column_names : list string)
        (data : list tuple) (w : world E) :
  (forall ex,
      snd (insert_into_database X K table_name column_names data w)
      = Raise ex ->
      is_sqlite3_Error ex = false)
  /\ (forall e1 e2 e3 e4 r1 r2 r4 outs,
         perform X (sqlite3_connect (DB_LOCAL_PATH K)) (ext w)
         = (e1, Ok r1) ->
         perform X connection_cursor e1 = (e2, Ok r2) ->
         row_outcomes X (insert_sql table_name column_names) data e2
         = (e3, outs) ->
         escaping outs = None ->
         perform X connection_commit e3 = (e4, Ok r4) ->
         exists added,
           insert_into_database X K table_name column_names data w
           = (mkWorld e4 (trace w ++ added),
              Ok (count is_inserted outs, count is_failed outs))
           /\ executed_rows (calls_of added) = data
           /\ length outs = length data
           /\ lines_of added
              = failure_lines X 1 data outs
                ++ [(INFO_LOG_LEVEL,
                     msg_tally (mkInsertLocals (count is_inserted outs)
                                               (count is_failed outs)))]
           /\ length (failure_lines X 1 data outs) = count is_failed outs)
  /\ (forall e1 e2 e3 e4 r1 r2 r4 ex outs,
         perform X (sqlite3_connect (DB_LOCAL_PATH K)) (ext w)
         = (e1, Ok r1) ->
         perform X connection_cursor e1 = (e2, Ok r2) ->
         row_outcomes X (insert_sql table_name column_names) data e2
         = (e3, outs) ->
         escaping outs = Some ex ->
         perform X connection_rollback e3 = (e4, Ok r4) ->
         exists mid,
           insert_into_database X K table_name column_names data w
           = (mkWorld e4
                (trace w
                 ++ Called (sqlite3_connect (DB_LOCAL_PATH K))
                 :: Called connection_cursor
                 :: mid ++ [Called connection_rollback]),
              Raise ex)
           /\ is_sqlite3_Error ex = false
           /\ executed_rows (calls_of mid) = firstn (length outs) data
           /\ lines_of mid = failure_lines X 1 data outs).
Proof.
  split; [|split].
  - intro ex. apply insert_into_database_contains_database_errors.
  - intros e1 e2 e3 e4 r1 r2 r4 outs Hconnect Hcursor Hrows Hcaught Hexit.
    destruct (insert_into_database_opened X K table_name column_names data w
                e1 e2 e3 r1 r2 outs Hconnect Hcursor Hrows Hcaught)
      as [mid [Hexec [Hlines Hrun]]].
    pose proof (row_outcomes_length X _ _ _ _ _ Hrows Hcaught) as Hlen.
    specialize (Hrun e4 [connection_commit] (Ok r4)
                     (leave_connection_commits X e3 e4 r4 Hexit)).
    unfold batch_end in Hrun. cbn [fst snd map app] in Hrun.
    eexists. split; [exact Hrun|].
    cbn [calls_of executed_rows lines_of].
    rewrite calls_of_app, executed_rows_app, lines_of_app, Hexec, Hlines.
    cbn [calls_of executed_rows lines_of]. rewrite app_nil_r.
    repeat split; auto using failure_lines_length.
  - intros e1 e2 e3 e4 r1 r2 r4 ex outs.
    apply insert_into_database_escaped.
Qed.

(** *** The empty batch *)

(** C9. With no rows, nothing is handed to [execute]; the call returns
    [(0, 0)] whenever it returns, and only an exception that is no database
    error keeps it from returning.  A connection that cannot be established
    gives [(0, len([]))], a connection that opens and closes gives
    [(0, 0)]: the same pair. *)
Theorem empty_batch_returns_zero_tally
        {E : Type} (X : Externals E) (K : constants)
        (table_name : string) (column_names : list string) (w : world E) :
  let run := insert_into_database X K table_name column_names [] w in
  (exists added,
      trace (fst run) = trace w ++ added
      /\ executed_rows (calls_of added) = [])
  /\ (forall p, snd run = Ok p -> p = (0, 0))
  /\ (forall ex, snd run = Raise ex -> is_sqlite3_Error ex = false)
  /\ (forall e1 ex,
         perform X (sqlite3_connect (DB_LOCAL_PATH K)) (ext w)
         = (e1, Raise ex) ->
         is_sqlite3_Error ex = true ->
         snd run = Ok (0, length (@nil tuple)))
  /\ (forall e1 e2 e3 r1 r2 r3,
         perform X (sqlite3_connect (DB_LOCAL_PATH K)) (ext w)
         = (e1, Ok r1) ->
         perform X connection_cursor e1 = (e2, Ok r2) ->
         perform X connection_commit e2 = (e3, Ok r3) ->
         snd run = Ok (0, 0)).
Proof.
  cbv [insert_into_database run_function insert_into_database_body
       try_except bind with_connect do_call insert_rows ret raise
       get_locals set_locals custom_logger dispatch].
  simpl.
  destruct (perform X (sqlite3_connect (DB_LOCAL_PATH K)) (ext w))
    as [e1 [r1|ex1]] eqn:Hconnect; simpl;
    [ destruct (perform X connection_cursor e1) as [e2 [r2|ex2]] eqn:Hcursor;
      simpl;
      [ destruct (perform X connection_commit e2) as [e3 [r3|ex3]]
                 eqn:Hexit; simpl;
        [ | destruct (perform X connection_rollback e3) as [e4 [r4|ex4]]
                     eqn:Hback; simpl;
            [ destruct (is_sqlite3_Error ex3) eqn:Hdb; simpl
            | destruct (is_sqlite3_Error ex4) eqn:Hdb; simpl ] ]
      | destruct (perform X connection_rollback e2) as [e3 [r3|ex3]]
                 eqn:Hexit; simpl;
        [ destruct (is_sqlite3_Error ex2) eqn:Hdb; simpl
        | destruct (is_sqlite3_Error ex3) eqn:Hdb; simpl ] ]
    | destruct (is_sqlite3_Error ex1) eqn:Hdb; simpl ].
  all: repeat split.
  all: try (eexists; rewrite <- ?app_assoc; split; reflexivity).
  all: intros;
    repeat match goal with
           | H : (_, _) = (_, _) |- _ => inversion H; subst; clear H
           | H : perform ?Y ?c ?e = _, H' : perform ?Y ?c ?e = _ |- _ =>
               rewrite H in H'
           end;
    congruence.
Qed.

(** *** A tally larger than the batch *)

(** C1. The counts of a call need not add up to the batch.  Here the
    connection opens, the first of two rows is inserted, the commit of the
    second is refused and so is the commit that closes the connection: the
    handler for database errors sets [rows_failed] to [len(data)] and keeps
    [rows_inserted], and the call returns [(1, 2)] for two rows. *)
Theorem tally_exceeds_batch_when_closing_commit_fails :
  let w := locked_at_commit in
  let returned :=
    snd (insert_into_database Replay.externals sample_constants
                              "t" ["id"; "val"] two_rows w) in
  snd (perform Replay.externals
               (sqlite3_connect (DB_LOCAL_PATH sample_constants)) (ext w))
  = Ok RNone
  /\ returned = Ok (1, 2)
  /\ 1 + 2 <> length two_rows.
Proof.
  repeat split; try reflexivity; simpl; lia.
Qed.

(** ** execute_select_query *)


Ltac destruct_perform :=
  repeat match goal with
         | |- context [perform ?X ?c ?e] =>
             let H := fresh "Hcall" in
             destruct (perform X c e) as [? [?|?]] eqn:H; simpl
         end.

(** The query that fails on its connection with a database error is logged
    and answered with [None]; any other exception goes to the caller. *)
Lemma execute_select_query_failure
      {E : Type} (X : Externals E) (K : constants)
      (query : string) (params : option tuple) (w : world E)
      (e1 : E) (ex : exn) :
  query_attempt X K query params (ext w) = (e1, Raise ex) ->
  exists added,
    execute_select_query X K query params w
    = (mkWorld e1 (trace w ++ added),
       if is_sqlite3_Error ex then Ok None else Raise ex)
    /\ lines_of added
       = if is_sqlite3_Error ex
         then [(ERROR_LOG_LEVEL, msg_query_failed query ex)]
         else [].
Proof.
  cbv [query_attempt in_connection select_calls perform_all
       execute_select_query run_function execute_select_query_body
       try_except bind with_connect do_call ret raise get_locals set_locals
       custom_logger dispatch].
  destruct (truthy_params params); simpl; destruct_perform;
    intro H; inversion H; subst; clear H;
    destruct (is_sqlite3_Error ex); simpl;
    rewrite <- ?app_assoc; simpl;
    eexists; split; reflexivity.
Qed.

(** The query that succeeds on its connection gives the rows [fetchall]
    returned, once the connection is closed by a commit; nothing is
    logged. *)
Lemma execute_select_query_success
      {E : Type} (X : Externals E) (K : constants)
      (query : string) (params : option tuple) (w : world E)
      (e1 e2 : E) (r r2 : reply) :
  query_attempt X K query params (ext w) = (e1, Ok r) ->
  perform X connection_commit e1 = (e2, Ok r2) ->
  exists added,
    execute_select_query X K query params w
    = (mkWorld e2 (trace w ++ added), Ok (Some (rows_of r)))
    /\ lines_of added = [].
Proof.
  cbv [query_attempt in_connection select_calls perform_all
       execute_select_query run_function execute_select_query_body
       try_except bind with_connect do_call ret raise get_locals set_locals
       custom_logger dispatch].
  intros Hattempt Hexit. revert Hattempt.
  destruct (truthy_params params); simpl; destruct_perform;
    intro H; inversion H; subst; clear H;
    match goal with
    | H' : perform X connection_commit ?e = _ |- _ =>
        rewrite Hexit in H'; inversion H'; subst; clear H'
    end;
    rewrite <- ?app_assoc; simpl;
    eexists; split; reflexivity.
Qed.

(** No database error leaves [execute_select_query]. *)
Lemma execute_select_query_contains_database_errors
      {E : Type} (X : Externals E) (K : constants)
      (query : string) (params : option tuple) (w : world E) (ex : exn) :
  snd (execute_select_query X K query params w) = Raise ex ->
  is_sqlite3_Error ex = false.
Proof.
  cbv [execute_select_query run_function execute_select_query_body
       try_except bind with_connect do_call ret raise get_locals set_locals
       custom_logger dispatch].
  destruct (truthy_params params); simpl; destruct_perform;
    repeat match goal with
           | |- context [is_sqlite3_Error ?x] =>
               let H := fresh "Hdb" in
               destruct (is_sqlite3_Error x) eqn:H; simpl
           end;
    intro H; inversion H; subst; clear H; congruence.
Qed.

(** C6, as the code has it.  A query that runs through on its connection
    gives all the rows [fetchall] returned, in their order, as [result].
    The handler names [sqlite3.Error]: a query that fails on its connection
    with a database error leaves one ERROR line with the text of the query
    and of the error, and [None] is returned; no database error reaches
    the caller.  A query that fails with an exception of another class is
    not caught: nothing is logged and the exception reaches the caller. *)
Theorem select_returns_rows_or_absent
        {E : Type} (X : Externals E) (K : constants)
        (query : string) (params : option tuple) (w : world E) :
  (forall e1 e2 r r2,
      query_attempt X K query params (ext w) = (e1, Ok r) ->
      perform X connection_commit e1 = (e2, Ok r2) ->
      exists added,
        execute_select_query X K query params w
        = (mkWorld e2 (trace w ++ added), Ok (Some (rows_of r)))
        /\ lines_of added = [])
  /\ (forall e1 ex,
         query_attempt X K query params (ext w) = (e1, Raise ex) ->
         is_sqlite3_Error ex = true ->
         exists added,
           execute_select_query X K query params w
           = (mkWorld e1 (trace w ++ added), Ok None)
           /\ lines_of added
              = [(ERROR_LOG_LEVEL,
                  ("Query " ++ query ++ " failed, database error: "
                   ++ str_exn ex ++ ".")%string)])
  /\ (forall ex,
         snd (execute_select_query X K query params w) = Raise ex ->
         is_sqlite3_Error ex = false)
  /\ (forall e1 ex,
         query_attempt X K query params (ext w) = (e1, Raise ex) ->
         is_sqlite3_Error ex = false ->
         exists added,
           execute_select_query X K query params w
           = (mkWorld e1 (trace w ++ added), Raise ex)
           /\ lines_of added = []).
Proof.
  split; [|split; [|split]].
  - intros e1 e2 r r2 Hattempt Hexit.
    exact (execute_select_query_success X K query params w e1 e2 r r2
             Hattempt Hexit).
  - intros e1 ex Hattempt Hdb.
    destruct (execute_select_query_failure X K query params w e1 ex Hattempt)
      as [added [Hrun Hlines]].
    rewrite Hdb in Hrun, Hlines. exists added. split; assumption.
  - intros ex.
    apply execute_select_query_contains_database_errors.
  - intros e1 ex Hattempt Hdb.
    destruct (execute_select_query_failure X K query params w e1 ex Hattempt)
      as [added [Hrun Hlines]].
    rewrite Hdb in Hrun, Hlines. exists added. split; assumption.
Qed.

(** C5, as the code has it.  A query that fails with a database error is
    answered with [None]; a query that runs through and matches no row is
    answered with the empty list.  The two answers differ. *)
Theorem failed_query_differs_from_empty_result
        {E : Type} (X : Externals E) (K : constants)
        (query : string) (params : option tuple) (w w' : world E)
        (e1 e1' e2' : E) (ex : exn) (r2 : reply) :
  query_attempt X K query params (ext w) = (e1, Raise ex) ->
  is_sqlite3_Error ex = true ->
  query_attempt X K query params (ext w') = (e1', Ok (RRows [])) ->
  perform X connection_commit e1' = (e2', Ok r2) ->
  snd (execute_select_query X K query params w) = Ok None
  /\ snd (execute_select_query X K query params w') = Ok (Some [])
  /\ snd (execute_select_query X K query params w)
     <> snd (execute_select_query X K query params w').
Proof.
  intros Hfail Hdb Hempty Hexit.
  destruct (execute_select_query_failure X K query params w e1 ex Hfail)
    as [added [Hrun _]].
  destruct (execute_select_query_success X K query params w' e1' e2'
              (RRows []) r2 Hempty Hexit) as [added' [Hrun' _]].
  rewrite Hdb in Hrun. rewrite Hrun, Hrun'. simpl.
  repeat split. discriminate.
Qed.

(** ** The object store *)

Section RemoteSync.
Context {E : Type} (X : Externals E) (K : constants).

(** Without all three credentials no client is made: the missing variables
    and the skip are logged, nothing else happens. *)
Lemma get_s3_client_skips {L : Type} (l : L) (w : world E) :
  all_credentials X (ext w) = false ->
  _get_s3_client X (l, w)
  = ((l, mkWorld (ext w) (trace w ++ skip_lines X (ext w))), Ok None).
Proof.
  unfold all_credentials, skip_lines, missing, credential_names,
    _get_s3_client, log_if_missing, os_environ_get, bind, ret,
    custom_logger.
  simpl.
  destruct (truthy_str (environ_get X "AWS_ACCESS_KEY_ID" (ext w)));
    destruct (truthy_str (environ_get X "AWS_SECRET_ACCESS_KEY" (ext w)));
    destruct (truthy_str (environ_get X "AWS_REGION" (ext w)));
    simpl; intro H; try discriminate H;
    rewrite <- ?app_assoc; reflexivity.
Qed.

Lemma download_skips (w : world E) :
  all_credentials X (ext w) = false ->
  download_database_from_s3 X K w
  = (mkWorld (ext w) (trace w ++ skip_lines X (ext w)), Ok tt).
Proof.
  intro H.
  unfold download_database_from_s3, run_function,
    download_database_from_s3_body, bind.
  rewrite (get_s3_client_skips tt w H). reflexivity.
Qed.

Lemma upload_skips (w : world E) :
  all_credentials X (ext w) = false ->
  upload_database_to_s3 X K w
  = (mkWorld (ext w) (trace w ++ skip_lines X (ext w)), Ok tt).
Proof.
  intro H.
  unfold upload_database_to_s3, run_function,
    upload_database_to_s3_body, bind.
  rewrite (get_s3_client_skips tt w H). reflexivity.
Qed.

(** The skip makes no call and logs one line per missing variable. *)
Lemma skip_lines_calls (e : E) : calls_of (skip_lines X e) = [].
Proof.
  unfold skip_lines, credential_names. simpl.
  destruct (missing X "AWS_ACCESS_KEY_ID" e);
    destruct (missing X "AWS_SECRET_ACCESS_KEY" e);
    destruct (missing X "AWS_REGION" e); reflexivity.
Qed.

Lemma skip_lines_lines (e : E) :
  lines_of (skip_lines X e)
  = map (fun name => (ERROR_LOG_LEVEL, msg_missing name))
        (filter (fun name => missing X name e) credential_names)
    ++ [(ERROR_LOG_LEVEL, msg_unable)].
Proof.
  unfold skip_lines, credential_names. simpl.
  destruct (missing X "AWS_ACCESS_KEY_ID" e);
    destruct (missing X "AWS_SECRET_ACCESS_KEY" e);
    destruct (missing X "AWS_REGION" e); reflexivity.
Qed.

(** A missing variable among the three leaves them incomplete. *)
Lemma missing_not_all (name : string) (e : E) :
  In name credential_names ->
  missing X name e = true ->
  all_credentials X e = false.
Proof.
  unfold all_credentials. intros Hin Hmiss.
  destruct (forallb (fun n => negb (missing X n e)) credential_names)
    eqn:Hall; [|reflexivity].
  rewrite forallb_forall in Hall. specialize (Hall name Hin).
  rewrite Hmiss in Hall. discriminate Hall.
Qed.

Lemma missing_logged (name : string) (e : E) :
  In name credential_names ->
  missing X name e = true ->
  In (Logged ERROR_LOG_LEVEL (msg_missing name)) (skip_lines X e).
Proof.
  intros Hin Hmiss. unfold skip_lines.
  apply in_or_app. left. apply in_flat_map.
  exists name. split; [exact Hin|]. rewrite Hmiss. left. reflexivity.
Qed.

(** A variable that is not missing holds a text that is not empty. *)
Lemma present_not_empty (name : string) (e : E) :
  missing X name e = false ->
  exists s, environ_get X name e = Some s /\ s <> ""%string.
Proof.
  unfold missing, truthy_str.
  destruct (environ_get X name e) as [s|]; simpl; [|discriminate].
  intro H. exists s. split; [reflexivity|].
  intro Hs. subst s. discriminate H.
Qed.
End RemoteSync.

Lemma events_since_app {E : Type} (w : world E) (e : E)
      (added : list event) :
  events_since w (mkWorld e (trace w ++ added)) = added.
Proof.
  unfold events_since. simpl.
  rewrite skipn_app, skipn_all, Nat.sub_diag. reflexivity.
Qed.

(** The lines of a skip depend on which variables are missing only. *)
Lemma skip_lines_same {E : Type} (X : Externals E) (e e' : E) :
  (forall name, In name credential_names ->
                missing X name e = missing X name e') ->
  skip_lines X e = skip_lines X e'.
Proof.
  intro Hsame. unfold skip_lines, credential_names. simpl.
  rewrite !(Hsame _) by (unfold credential_names; simpl; tauto).
  reflexivity.
Qed.

(** C7. When one of the three credential variables is unset, no client is
    made ([None]); [download_database_from_s3] and [upload_database_to_s3]
    return without raising and without a single call to a collaborator, so
    nothing goes over the network; the log gets one line for each missing
    variable, the unset one among them, and the line that tells of the
    skip. *)
Theorem unset_credential_skips_sync
        {E : Type} (X : Externals E) (K : constants)
        (w : world E) (name : string) :
  In name credential_names ->
  environ_get X name (ext w) = None ->
  let skipped := mkWorld (ext w) (trace w ++ skip_lines X (ext w)) in
  run_function tt (_get_s3_client X) w = (skipped, Ok None)
  /\ download_database_from_s3 X K w = (skipped, Ok tt)
  /\ upload_database_to_s3 X K w = (skipped, Ok tt)
  /\ calls_of (skip_lines X (ext w)) = []
  /\ lines_of (skip_lines X (ext w))
     = map (fun n => (ERROR_LOG_LEVEL, msg_missing n))
           (filter (fun n => missing X n (ext w)) credential_names)
       ++ [(ERROR_LOG_LEVEL, msg_unable)]
  /\ In (Logged ERROR_LOG_LEVEL (msg_missing name)) (skip_lines X (ext w)).
Proof.
  intros Hin Hunset skipped.
  assert (Hmiss : missing X name (ext w) = true)
    by (unfold missing; rewrite Hunset; reflexivity).
  pose proof (missing_not_all X name (ext w) Hin Hmiss) as Hnot.
  repeat split.
  - unfold run_function. rewrite (get_s3_client_skips X tt w Hnot).
    reflexivity.
  - apply download_skips, Hnot.
  - apply upload_skips, Hnot.
  - apply skip_lines_calls.
  - apply skip_lines_lines.
  - apply missing_logged; assumption.
Qed.

(** C10. A credential variable set to the empty string does what an unset
    one does: from two states that differ in that alone, the same lines are
    logged, the variable is reported missing, no client is made and both
    transfers are skipped.  A transfer makes a call only when the three
    variables are set and not empty. *)
Theorem empty_credential_counts_as_missing
        {E : Type} (X : Externals E) (K : constants)
        (w w' : world E) (name : string) :
  In name credential_names ->
  environ_get X name (ext w) = Some ""%string ->
  environ_get X name (ext w') = None ->
  (forall other, In other credential_names -> other <> name ->
                 environ_get X other (ext w) = environ_get X other (ext w')) ->
  let skipped := mkWorld (ext w) (trace w ++ skip_lines X (ext w)) in
  skip_lines X (ext w) = skip_lines X (ext w')
  /\ In (Logged ERROR_LOG_LEVEL (msg_missing name)) (skip_lines X (ext w))
  /\ run_function tt (_get_s3_client X) w = (skipped, Ok None)
  /\ download_database_from_s3 X K w = (skipped, Ok tt)
  /\ upload_database_to_s3 X K w = (skipped, Ok tt)
  /\ (forall v,
         calls_of (events_since v (fst (download_database_from_s3 X K v)))
         <> []
         \/ calls_of (events_since v (fst (upload_database_to_s3 X K v)))
            <> [] ->
         forall n, In n credential_names ->
                   exists s, environ_get X n (ext v) = Some s
                             /\ s <> ""%string).
Proof.
  intros Hin Hempty Hunset Hothers skipped.
  assert (Hmiss : missing X name (ext w) = true)
    by (unfold missing; rewrite Hempty; reflexivity).
  assert (Hmiss' : missing X name (ext w') = true)
    by (unfold missing; rewrite Hunset; reflexivity).
  pose proof (missing_not_all X name (ext w) Hin Hmiss) as Hnot.
  split; [|split; [|split; [|split; [|split]]]].
  - apply skip_lines_same. intros n Hn.
    destruct (string_dec n name) as [->|Hneq].
    + rewrite Hmiss, Hmiss'. reflexivity.
    + unfold missing. rewrite (Hothers n Hn Hneq). reflexivity.
  - apply missing_logged; assumption.
  - unfold run_function. rewrite (get_s3_client_skips X tt w Hnot).
    reflexivity.
  - apply download_skips, Hnot.
  - apply upload_skips, Hnot.
  - intros v Hcalls n Hn.
    apply present_not_empty.
    destruct (all_credentials X (ext v)) eqn:Hall.
    + unfold all_credentials in Hall. rewrite forallb_forall in Hall.
      specialize (Hall n Hn). destruct (missing X n (ext v));
        [discriminate Hall|reflexivity].
    + exfalso.
      rewrite (download_skips X K v Hall), (upload_skips X K v Hall) in Hcalls.
      simpl in Hcalls.
      rewrite events_since_app, skip_lines_calls in Hcalls.
      destruct Hcalls as [H|H]; apply H; reflexivity.
Qed.

(** ** create_database *)

(** C8, as the code has it.  Once the data directories are ensured, every
    failure of the steps that follow (reading the schema file, connecting,
    running the script, committing, closing) is logged as one ERROR line
    and absorbed: the call returns [None], as it does on success, where it
    logs one INFO line.  The directories are ensured before the [try]: an
    exception of [os.makedirs] is neither logged nor absorbed, it reaches
    the caller. *)
Theorem create_database_absorbs_failures_after_directories
        {E : Type} (X : Externals E) (K : constants) (w : world E) :
  (forall e1 e2 e3 r1 r2 rs,
      perform X (os_makedirs (EXTRACTED_DATA_DIR K)) (ext w) = (e1, Ok r1) ->
      perform X (os_makedirs (GENERATED_DATA_DIR K)) e1 = (e2, Ok r2) ->
      schema_steps X K e2 = (e3, rs) ->
      exists added,
        create_database X K w = (mkWorld e3 (trace w ++ added), Ok tt)
        /\ lines_of added
           = match rs with
             | Ok _ => [(INFO_LOG_LEVEL, msg_database_created K)]
             | Raise ex => [(ERROR_LOG_LEVEL, msg_error_creating ex)]
             end)
  /\ (forall e1 ex,
         perform X (os_makedirs (EXTRACTED_DATA_DIR K)) (ext w)
         = (e1, Raise ex) ->
         create_database X K w
         = (mkWorld e1 (trace w ++ [Called (os_makedirs
                                              (EXTRACTED_DATA_DIR K))]),
            Raise ex))
  /\ (forall e1 e2 r1 ex,
         perform X (os_makedirs (EXTRACTED_DATA_DIR K)) (ext w)
         = (e1, Ok r1) ->
         perform X (os_makedirs (GENERATED_DATA_DIR K)) e1
         = (e2, Raise ex) ->
         create_database X K w
         = (mkWorld e2 (trace w ++ [Called (os_makedirs
                                              (EXTRACTED_DATA_DIR K));
                                    Called (os_makedirs
                                              (GENERATED_DATA_DIR K))]),
            Raise ex)).
Proof.
  split; [|split].
  - intros e1 e2 e3 r1 r2 rs Hdir1 Hdir2.
    cbv [schema_steps perform_all create_database run_function
         create_database_body ensure_data_directories_exist try_except bind
         do_call ret raise custom_logger dispatch is_Exception].
    rewrite Hdir1. simpl. rewrite Hdir2. simpl.
    destruct_perform; intro H; inversion H; subst; clear H;
      rewrite <- ?app_assoc; simpl; eexists; split; reflexivity.
  - intros e1 ex Hdir1.
    cbv [create_database run_function create_database_body
         ensure_data_directories_exist try_except bind do_call].
    rewrite Hdir1. reflexivity.
  - intros e1 e2 r1 ex Hdir1 Hdir2.
    cbv [create_database run_function create_database_body
         ensure_data_directories_exist try_except bind do_call].
    rewrite Hdir1. simpl. rewrite Hdir2. simpl.
    rewrite <- app_assoc. reflexivity.
Qed.

(** ** The statements at work *)


Lemma connection_failure_fails_whole_batch_witness :
  snd (insert_into_database KeyedTable.externals sample_constants
                            "t" ["id"; "val"] three_rows unreachable_table)
  = Ok (0, 3).
Proof.
  rewrite (connection_failure_fails_whole_batch
             KeyedTable.externals sample_constants "t" ["id"; "val"]
             three_rows unreachable_table (ext unreachable_table)
             KeyedTable.unable_to_open eq_refl eq_refl).
  reflexivity.
Defined.

(** C4 does not hold as stated: the second of three rows holds an integer
    that does not fit, [execute] raises [OverflowError], and the call
    raises it; the third row is never handed to [execute]. *)
Lemma row_exception_reaches_caller :
  snd (insert_into_database Replay.externals sample_constants
                            "t" ["id"; "n"] big_rows overflow_on_second_row)
  = Raise int_too_large
  /\ executed_rows
       (calls_of (trace (fst (insert_into_database
                                Replay.externals sample_constants
                                "t" ["id"; "n"] big_rows
                                overflow_on_second_row))))
     = firstn 2 big_rows.
Proof. split; reflexivity. Qed.

Lemma row_errors_are_isolated_witness :
  (exists added,
      insert_into_database KeyedTable.externals sample_constants
                           "t" ["id"; "val"] three_rows fresh_table
      = (mkWorld (KeyedTable.mkState true [ [VStr "a"; VStr "1"];
                                            [VStr "b"; VStr "2"] ] [] [])
                 (trace fresh_table ++ added),
         Ok (2, 1))
      /\ executed_rows (calls_of added) = three_rows
      /\ 3 = length three_rows
      /\ lines_of added
         = [(ERROR_LOG_LEVEL,
             msg_integrity_error KeyedTable.externals 3
                                 KeyedTable.unique_failed
                                 [VStr "a"; VStr "3"])]
           ++ [(INFO_LOG_LEVEL, "rows_inserted: 2, rows_failed: 1"%string)]
      /\ 1 = 1)
  /\ snd (insert_into_database Replay.externals sample_constants
                               "t" ["id"; "n"] big_rows
                               overflow_on_second_row)
     = Raise int_too_large.
Proof.
  split.
  - exact (proj1 (proj2 (row_errors_are_isolated
                           KeyedTable.externals sample_constants
                           "t" ["id"; "val"] three_rows fresh_table))
                 (ext fresh_table) (ext fresh_table)
                 (KeyedTable.mkState true [ [VStr "a"; VStr "1"];
                                            [VStr "b"; VStr "2"] ] [] [])
                 (KeyedTable.mkState true [ [VStr "a"; VStr "1"];
                                            [VStr "b"; VStr "2"] ] [] [])
                 RNone RNone RNone
                 [RowInserted; RowInserted;
                  RowFailed KeyedTable.unique_failed]
                 eq_refl eq_refl eq_refl eq_refl eq_refl).
  - destruct (proj2 (proj2 (row_errors_are_isolated
                              Replay.externals sample_constants
                              "t" ["id"; "n"] big_rows
                              overflow_on_second_row))
                    _ _ _ _ RNone RNone RNone int_too_large
                    [RowInserted; RowEscaped int_too_large]
                    eq_refl eq_refl eq_refl eq_refl eq_refl)
      as [mid [Hrun _]].
    rewrite Hrun. reflexivity.
Defined.

(** Inserting the batch of the scenario gives [(2, 1)]; inserting it once
    more, every key being taken, gives [(0, 3)]. *)
Example scenario_then_again :
  let first :=
    insert_into_database KeyedTable.externals sample_constants
                         "t" ["id"; "val"] three_rows fresh_table in
  snd first = Ok (2, 1)
  /\ snd (insert_into_database KeyedTable.externals sample_constants
                               "t" ["id"; "val"] three_rows (fst first))
     = Ok (0, 3).
Proof. split; reflexivity. Qed.

(** C5 does not hold: on an empty table the query returns the empty list,
    on a table out of reach it returns [None], and the two differ. *)
Lemma zero_rows_is_not_absent :
  snd (execute_select_query KeyedTable.externals sample_constants
                            "SELECT * FROM t" None fresh_table)
  = Ok (Some [])
  /\ snd (execute_select_query KeyedTable.externals sample_constants
                               "SELECT * FROM t" None unreachable_table)
     = Ok None
  /\ snd (execute_select_query KeyedTable.externals sample_constants
                               "SELECT * FROM t" None fresh_table)
     <> snd (execute_select_query KeyedTable.externals sample_constants
                                  "SELECT * FROM t" None unreachable_table).
Proof.
  split; [reflexivity|]. split; [reflexivity|].
  intro H. vm_compute in H. discriminate H.
Qed.

Lemma failed_query_differs_from_empty_result_witness :
  snd (execute_select_query KeyedTable.externals sample_constants
                            "SELECT * FROM t" None unreachable_table)
  = Ok None
  /\ snd (execute_select_query KeyedTable.externals sample_constants
                               "SELECT * FROM t" None fresh_table)
     = Ok (Some [])
  /\ snd (execute_select_query KeyedTable.externals sample_constants
                               "SELECT * FROM t" None unreachable_table)
     <> snd (execute_select_query KeyedTable.externals sample_constants
                                  "SELECT * FROM t" None fresh_table).
Proof.
  exact (failed_query_differs_from_empty_result
           KeyedTable.externals sample_constants "SELECT * FROM t" None
           unreachable_table fresh_table
           (ext unreachable_table) (ext fresh_table) (ext fresh_table)
           KeyedTable.unable_to_open RNone
           eq_refl eq_refl eq_refl eq_refl).
Defined.

(** C6 does not hold as stated: a parameter that does not fit makes
    [execute] raise [OverflowError]; the exception reaches the caller and
    nothing is logged. *)
Lemma overflowing_parameter_reaches_caller :
  snd (execute_select_query Replay.externals sample_constants
                            "SELECT * FROM t WHERE n = ?"
                            (Some [VInt (2 ^ 63)]) overflow_on_execute)
  = Raise int_too_large
  /\ lines_of (trace (fst (execute_select_query
                             Replay.externals sample_constants
                             "SELECT * FROM t WHERE n = ?"
                             (Some [VInt (2 ^ 63)]) overflow_on_execute)))
     = [].
Proof. split; reflexivity. Qed.

Lemma select_returns_rows_or_absent_witness :
  (exists added,
      execute_select_query KeyedTable.externals sample_constants
                           "SELECT * FROM t WHERE id = ?" (Some [VStr "a"])
                           stocked_table
      = (mkWorld (KeyedTable.mkState true
                    [ [VStr "a"; VStr "1"]; [VStr "b"; VStr "2"] ]
                    [ [VStr "a"; VStr "1"] ] [])
                 (trace stocked_table ++ added),
         Ok (Some [ [VStr "a"; VStr "1"] ]))
      /\ lines_of added = [])
  /\ (exists added,
         execute_select_query KeyedTable.externals sample_constants
                              "SELECT * FROM t" None unreachable_table
         = (mkWorld (ext unreachable_table)
                    (trace unreachable_table ++ added),
            Ok None)
         /\ lines_of added
            = [(ERROR_LOG_LEVEL,
                "Query SELECT * FROM t failed, database error: unable to open database file.")])
  /\ snd (execute_select_query Replay.externals sample_constants
                               "SELECT * FROM t WHERE n = ?"
                               (Some [VInt (2 ^ 63)]) overflow_on_execute)
     = Raise int_too_large.
Proof.
  split; [|split].
  - exact (proj1 (select_returns_rows_or_absent
                    KeyedTable.externals sample_constants
                    "SELECT * FROM t WHERE id = ?" (Some [VStr "a"])
                    stocked_table)
                 _ _ (RRows [ [VStr "a"; VStr "1"] ]) RNone
                 eq_refl eq_refl).
  - exact (proj1 (proj2 (select_returns_rows_or_absent
                           KeyedTable.externals sample_constants
                           "SELECT * FROM t" None unreachable_table))
                 _ KeyedTable.unable_to_open eq_refl eq_refl).
  - destruct (proj2 (proj2 (proj2 (select_returns_rows_or_absent
                                     Replay.externals sample_constants
                                     "SELECT * FROM t WHERE n = ?"
                                     (Some [VInt (2 ^ 63)])
                                     overflow_on_execute)))
                    _ int_too_large eq_refl eq_refl)
      as [added [Hrun _]].
    rewrite Hrun. reflexivity.
Defined.

Lemma unset_credential_skips_sync_witness :
  download_database_from_s3 KeyedTable.externals sample_constants
                            secret_unset
  = (mkWorld (ext secret_unset)
       [ Logged ERROR_LOG_LEVEL
                "Missing AWS_SECRET_ACCESS_KEY environment variable.";
         Logged ERROR_LOG_LEVEL
                "Unable to create S3 client. Skipping operation." ],
     Ok tt).
Proof.
  exact (proj1 (proj2 (unset_credential_skips_sync
                         KeyedTable.externals sample_constants secret_unset
                         "AWS_SECRET_ACCESS_KEY"
                         (or_intror (or_introl eq_refl)) eq_refl))).
Defined.

Lemma empty_credential_counts_as_missing_witness :
  skip_lines KeyedTable.externals (ext region_empty)
  = skip_lines KeyedTable.externals (ext region_unset)
  /\ upload_database_to_s3 KeyedTable.externals sample_constants
                           region_empty
     = (mkWorld (ext region_empty)
          [ Logged ERROR_LOG_LEVEL "Missing AWS_REGION environment variable.";
            Logged ERROR_LOG_LEVEL
                   "Unable to create S3 client. Skipping operation." ],
        Ok tt).
Proof.
  assert (Hothers :
            forall other, In other credential_names ->
                          other <> "AWS_REGION"%string ->
                          environ_get KeyedTable.externals other
                                      (ext region_empty)
                          = environ_get KeyedTable.externals other
                                        (ext region_unset)).
  { intros other [<-|[<-|[<-|[]]]] Hneq; try reflexivity.
    contradiction Hneq; reflexivity. }
  pose proof (empty_credential_counts_as_missing
                KeyedTable.externals sample_constants
                region_empty region_unset "AWS_REGION"
                (or_intror (or_intror (or_introl eq_refl)))
                eq_refl eq_refl Hothers) as H.
  split; [exact (proj1 H)|].
  exact (proj1 (proj2 (proj2 (proj2 (proj2 H))))).
Defined.

(** C8 does not hold as stated: when the first data directory cannot be
    created, [create_database] raises, and nothing is logged. *)
Lemma create_database_raises_without_directories :
  create_database Replay.externals sample_constants no_directories
  = (mkWorld (Replay.mkState [] [])
             [ Called (os_makedirs "data/extracted") ],
     Raise permission_denied)
  /\ snd (create_database Replay.externals sample_constants no_directories)
     <> Ok tt.
Proof. split; [reflexivity|discriminate]. Qed.

Lemma create_database_absorbs_failures_after_directories_witness :
  exists added,
    create_database KeyedTable.externals sample_constants unreachable_table
    = (mkWorld (ext unreachable_table)
               (trace unreachable_table ++ added), Ok tt)
    /\ lines_of added
       = [(ERROR_LOG_LEVEL,
           "Error creating the database: unable to open database file")].
Proof.
  exact (proj1 (create_database_absorbs_failures_after_directories
                  KeyedTable.externals sample_constants unreachable_table)
               _ _ _ RNone RNone (Raise KeyedTable.unable_to_open)
               eq_refl eq_refl eq_refl).
Defined.

Lemma empty_batch_returns_zero_tally_witness :
  snd (insert_into_database KeyedTable.externals sample_constants
                            "t" ["id"; "val"] [] fresh_table) = Ok (0, 0)
  /\ snd (insert_into_database KeyedTable.externals sample_constants
                               "t" ["id"; "val"] [] unreachable_table)
     = Ok (0, 0).
Proof.
  split.
  - exact (proj2 (proj2 (proj2 (proj2
             (empty_batch_returns_zero_tally
                KeyedTable.externals sample_constants "t" ["id"; "val"]
                fresh_table))))
             _ _ _ RNone RNone RNone eq_refl eq_refl eq_refl).
  - exact (proj1 (proj2 (proj2 (proj2
             (empty_batch_returns_zero_tally
                KeyedTable.externals sample_constants "t" ["id"; "val"]
                unreachable_table))))
             _ KeyedTable.unable_to_open eq_refl eq_refl).
Defined.

(** ** More on insert_into_database *)

(** X1. The counts add up: on a connection that opens, when every error a row
    meets is a database error and the commit that closes the connection
    returns, the pair returned is the number of rows inserted and the
    number of rows failed, their sum is [len(data)], and the last line
    logged is the INFO line with these two counts. *)
Theorem tally_adds_up_when_connection_closes
        {E : Type} (X : Externals E) (K : constants)
        (table_name : string) (column_names : list string)
        (data : list tuple) (w : world E)
        (e1 e2 e3 e4 : E) (r1 r2 r4 : reply) (outs : list row_outcome) :
  perform X (sqlite3_connect (DB_LOCAL_PATH K)) (ext w) = (e1, Ok r1) ->
  perform X connection_cursor e1 = (e2, Ok r2) ->
  row_outcomes X (insert_sql table_name column_names) data e2 = (e3, outs) ->
  escaping outs = None ->
  perform X connection_commit e3 = (e4, Ok r4) ->
  exists inserted failed added,
    insert_into_database X K table_name column_names data w
    = (mkWorld e4 (trace w ++ added), Ok (inserted, failed))
    /\ inserted + failed = length data
    /\ inserted = count is_inserted outs
    /\ failed = count is_failed outs
    /\ lines_of added
       = failure_lines X 1 data outs
         ++ [(INFO_LOG_LEVEL,
              ("rows_inserted: " ++ str_nat inserted ++ ", rows_failed: "
               ++ str_nat failed)%string)].
Proof.
  intros Hconnect Hcursor Hrows Hcaught Hexit.
  destruct (insert_into_database_opened X K table_name column_names data w
              e1 e2 e3 r1 r2 outs Hconnect Hcursor Hrows Hcaught)
    as [mid [_ [Hlines Hrun]]].
  exists (count is_inserted outs), (count is_failed outs).
  eexists.
  rewrite (Hrun e4 [connection_commit] (Ok r4)
                (leave_connection_commits X e3 e4 r4 Hexit)).
  unfold batch_end. cbn [fst snd map app].
  split; [reflexivity|].
  rewrite (count_partition outs Hcaught),
    (row_outcomes_length X _ _ _ _ _ Hrows Hcaught).
  repeat split.
  cbn [lines_of]. rewrite lines_of_app, Hlines. reflexivity.
Qed.

(** X2. When the commit that closes the connection raises, the
    connection is rolled back, and the exception that goes on is the one of
    the commit, or the one of the rollback when that raises too.  When it
    is a database error, the handler of the whole call logs it and reports
    every row as failed, while the count of the rows inserted stays: the
    call returns that count and [len(data)], and no INFO line is logged.
    When it is no database error, it reaches the caller. *)
Theorem closing_commit_failure_keeps_inserted
        {E : Type} (X : Externals E) (K : constants)
        (table_name : string) (column_names : list string)
        (data : list tuple) (w : world E)
        (e1 e2 e3 e4 e5 : E) (r1 r2 : reply) (ex : exn)
        (rb : result reply) (outs : list row_outcome) :
  perform X (sqlite3_connect (DB_LOCAL_PATH K)) (ext w) = (e1, Ok r1) ->
  perform X connection_cursor e1 = (e2, Ok r2) ->
  row_outcomes X (insert_sql table_name column_names) data e2 = (e3, outs) ->
  escaping outs = None ->
  perform X connection_commit e3 = (e4, Raise ex) ->
  perform X connection_rollback e4 = (e5, rb) ->
  exists mid,
    lines_of mid = failure_lines X 1 data outs
    /\ insert_into_database X K table_name column_names data w
       = if is_sqlite3_Error (leaving_exception ex rb)
         then (mkWorld e5
                 (trace w
                  ++ Called (sqlite3_connect (DB_LOCAL_PATH K))
                  :: Called connection_cursor
                  :: mid
                  ++ [ Called connection_commit;
                       Called connection_rollback;
                       Logged ERROR_LOG_LEVEL
                              (msg_unexpected (leaving_exception ex rb)) ]),
               Ok (count is_inserted outs, length data))
         else (mkWorld e5
                 (trace w
                  ++ Called (sqlite3_connect (DB_LOCAL_PATH K))
                  :: Called connection_cursor
                  :: mid
                  ++ [ Called connection_commit;
                       Called connection_rollback ]),
               Raise (leaving_exception ex rb)).
Proof.
  intros Hconnect Hcursor Hrows Hcaught Hexit Hback.
  destruct (insert_into_database_opened X K table_name column_names data w
              e1 e2 e3 r1 r2 outs Hconnect Hcursor Hrows Hcaught)
    as [mid [_ [Hlines Hrun]]].
  exists mid. split; [exact Hlines|].
  assert (Hleave :
            leave_connection X e3
            = (e5, ([connection_commit; connection_rollback],
                    Raise (leaving_exception ex rb)))).
  { unfold leave_connection. rewrite Hexit, Hback.
    destruct rb; reflexivity. }
  rewrite (Hrun _ _ _ Hleave). unfold batch_end.
  destruct (is_sqlite3_Error (leaving_exception ex rb)); reflexivity.
Qed.

(** X3. An exception of a row that is no database error (an integer that does
    not fit, say) is caught by none of the handlers: the connection is
    rolled back, the rows after that one are never handed to [execute],
    no summary is logged and the exception reaches the caller. *)
Theorem row_exception_aborts_batch
        {E : Type} (X : Externals E) (K : constants)
        (table_name : string) (column_names : list string)
        (data : list tuple) (w : world E)
        (e1 e2 e3 e4 : E) (r1 r2 r4 : reply) (ex : exn)
        (outs : list row_outcome) :
  perform X (sqlite3_connect (DB_LOCAL_PATH K)) (ext w) = (e1, Ok r1) ->
  perform X connection_cursor e1 = (e2, Ok r2) ->
  row_outcomes X (insert_sql table_name column_names) data e2 = (e3, outs) ->
  escaping outs = Some ex ->
  perform X connection_rollback e3 = (e4, Ok r4) ->
  exists mid,
    insert_into_database X K table_name column_names data w
    = (mkWorld e4
         (trace w
          ++ Called (sqlite3_connect (DB_LOCAL_PATH K))
          :: Called connection_cursor
          :: mid ++ [Called connection_rollback]),
       Raise ex)
    /\ is_sqlite3_Error ex = false
    /\ executed_rows (calls_of mid) = firstn (length outs) data
    /\ lines_of mid = failure_lines X 1 data outs.
Proof.
  exact (insert_into_database_escaped
           X K table_name column_names data w e1 e2 e3 e4 r1 r2 r4 ex outs).
Qed.

(** X4. A database error of [cursor()] is handled like one of
    [sqlite3.connect]: the connection is rolled back, no row is handed to
    [execute], and the call returns [(0, len(data))]. *)
Theorem cursor_failure_fails_whole_batch
        {E : Type} (X : Externals E) (K : constants)
        (table_name : string) (column_names : list string)
        (data : list tuple) (w : world E)
        (e1 e2 e3 : E) (r1 r3 : reply) (ex : exn) :
  perform X (sqlite3_connect (DB_LOCAL_PATH K)) (ext w) = (e1, Ok r1) ->
  perform X connection_cursor e1 = (e2, Raise ex) ->
  is_sqlite3_Error ex = true ->
  perform X connection_rollback e2 = (e3, Ok r3) ->
  insert_into_database X K table_name column_names data w
  = (mkWorld e3
       (trace w ++ [ Called (sqlite3_connect (DB_LOCAL_PATH K));
                     Called connection_cursor;
                     Called connection_rollback;
                     Logged ERROR_LOG_LEVEL (msg_unexpected ex) ]),
     Ok (0, length data)).
Proof.
  intros Hconnect Hcursor Hdb Hback.
  cbv [insert_into_database run_function insert_into_database_body
       try_except bind with_connect do_call].
  rewrite Hconnect. simpl ext. rewrite Hcursor. simpl. rewrite Hback.
  simpl. rewrite Hdb. unfold custom_logger, set_locals. simpl.
  rewrite <- !app_assoc. reflexivity.
Qed.

(** A row is inserted when its statement and its commit both return. *)
Lemma insert_row_inserted {E : Type} (X : Externals E)
      (sql : string) (index : nat) (row : tuple)
      (l : insert_locals) (w : world E) (e1 : E) :
  attempt_row X sql row (ext w) = (e1, RowInserted) ->
  insert_row X sql index row (l, w)
  = ((incr_rows_inserted l,
      mkWorld e1 (trace w ++ map Called (row_calls sql row))), Ok tt).
Proof.
  unfold attempt_row, insert_row, classify, row_calls, try_except, bind,
    do_call, set_locals.
  simpl.
  destruct (perform X (cursor_execute sql (Some row)) (ext w))
    as [e0 [r0|x]]; simpl.
  - destruct (perform X connection_commit e0) as [e2 [r2|x]]; simpl.
    + intro H. inversion H; subst. rewrite <- app_assoc. reflexivity.
    + destruct (is_sqlite3_Error x); intro H; discriminate H.
  - destruct (is_sqlite3_Error x); intro H; discriminate H.
Qed.

Lemma insert_rows_all_inserted {E : Type} (X : Externals E) (sql : string) :
  forall (data : list tuple) (index : nat) (l : insert_locals)
         (w : world E) (e' : E) (outs : list row_outcome),
    row_outcomes X sql data (ext w) = (e', outs) ->
    forallb is_inserted outs = true ->
    insert_rows X sql index data (l, w)
    = ((mkInsertLocals (rows_inserted l + length data) (rows_failed l),
        mkWorld e' (trace w ++ map Called (flat_map (row_calls sql) data))),
       Ok tt).
Proof.
  induction data as [|row rest IH]; intros index l w e' outs Hout Hall.
  - simpl in Hout. inversion Hout; subst. destruct l, w. simpl.
    unfold ret. rewrite Nat.add_0_r, app_nil_r. reflexivity.
  - simpl in Hout.
    destruct (attempt_row X sql row (ext w)) as [e1 o] eqn:Hrow.
    destruct o as [|ex|ex].
    + destruct (row_outcomes X sql rest e1) as [e2 os] eqn:Hrest.
      inversion Hout; subst; clear Hout. simpl in Hall.
      cbn [insert_rows]. unfold bind at 1.
      rewrite (insert_row_inserted X sql index row l w e1 Hrow).
      rewrite (IH (S index) (incr_rows_inserted l)
                  (mkWorld e1 (trace w ++ map Called (row_calls sql row)))
                  e' os Hrest Hall).
      cbn [flat_map trace length rows_inserted rows_failed
           incr_rows_inserted].
      rewrite map_app, <- app_assoc.
      replace (rows_inserted l + 1 + length rest)
        with (rows_inserted l + S (length rest)) by lia.
      reflexivity.
    + destruct (row_outcomes X sql rest e1) as [e2 os].
      inversion Hout; subst. discriminate Hall.
    + inversion Hout; subst. discriminate Hall.
Qed.

(** X5. A batch whose rows are all inserted takes one connection and one
    cursor; then, row after row in the order of the batch, the one INSERT
    statement built from the table and the columns, each followed by its
    own commit; then the commit that closes the connection.  One INFO line
    is logged and [(len(data), 0)] is returned. *)
Theorem valid_batch_commits_row_by_row
        {E : Type} (X : Externals E) (K : constants)
        (table_name : string) (column_names : list string)
        (data : list tuple) (w : world E)
        (e1 e2 e3 e4 : E) (r1 r2 r4 : reply) (outs : list row_outcome) :
  perform X (sqlite3_connect (DB_LOCAL_PATH K)) (ext w) = (e1, Ok r1) ->
  perform X connection_cursor e1 = (e2, Ok r2) ->
  row_outcomes X (insert_sql table_name column_names) data e2 = (e3, outs) ->
  forallb is_inserted outs = true ->
  perform X connection_commit e3 = (e4, Ok r4) ->
  insert_into_database X K table_name column_names data w
  = (mkWorld e4
       (trace w
        ++ map Called
             (sqlite3_connect (DB_LOCAL_PATH K)
              :: connection_cursor
              :: flat_map (row_calls (insert_sql table_name column_names))
                          data
              ++ [connection_commit])
        ++ [Logged INFO_LOG_LEVEL
                   (msg_tally (mkInsertLocals (length data) 0))]),
     Ok (length data, 0)).
Proof.
  intros Hconnect Hcursor Hrows Hall Hexit.
  cbv [insert_into_database run_function insert_into_database_body
       try_except bind with_connect do_call].
  rewrite Hconnect. simpl ext. rewrite Hcursor. simpl trace.
  rewrite (insert_rows_all_inserted
             X (insert_sql table_name column_names) data 1
             (mkInsertLocals 0 0)
             (mkWorld e2 ((trace w
                           ++ [Called (sqlite3_connect (DB_LOCAL_PATH K))])
                          ++ [Called connection_cursor]))
             e3 outs Hrows Hall).
  cbv beta iota. simpl ext. rewrite Hexit.
  unfold ret, get_locals, custom_logger. simpl.
  rewrite map_app, <- !app_assoc. reflexivity.
Qed.

(** ** More on execute_select_query *)

(** X7. A query that runs through takes one connection, one cursor, one
    statement, one [fetchall] and the closing commit, and logs nothing.
    The statement gets the parameters when the tuple is given and not
    empty; with [None] or the empty tuple it is executed without any. *)
Theorem select_runs_one_statement
        {E : Type} (X : Externals E) (K : constants)
        (query : string) (params : option tuple) (w : world E)
        (e1 e2 : E) (r r2 : reply) :
  query_attempt X K query params (ext w) = (e1, Ok r) ->
  perform X connection_commit e1 = (e2, Ok r2) ->
  execute_select_query X K query params w
  = (mkWorld e2
       (trace w
        ++ map Called
             [ sqlite3_connect (DB_LOCAL_PATH K);
               connection_cursor;
               cursor_execute query
                              match params with
                              | Some (_ :: _) => params
                              | _ => None
                              end;
               cursor_fetchall;
               connection_commit ]),
     Ok (Some (rows_of r))).
Proof.
  cbv [query_attempt in_connection select_calls perform_all
       execute_select_query run_function execute_select_query_body
       try_except bind with_connect do_call ret raise get_locals set_locals
       custom_logger dispatch].
  intros Hattempt Hexit. revert Hattempt.
  destruct params as [[|v rest]|]; simpl; destruct_perform;
    intro H; inversion H; subst; clear H;
    match goal with
    | H' : perform X connection_commit ?e = _ |- _ =>
        rewrite Hexit in H'; inversion H'; subst; clear H'
    end;
    rewrite <- ?app_assoc; reflexivity.
Qed.

(** X8. The rows are assigned before the connection is closed.  When
    the closing commit raises after a statement that ran through, the
    connection is rolled back, and the exception that goes on is the one
    of the commit, or the one of the rollback when that raises too.  When
    it is a database error, it is logged and the rows fetched are returned
    all the same, not [None].  When it is no database error, it reaches
    the caller. *)
Theorem closing_failure_keeps_fetched_rows
        {E : Type} (X : Externals E) (K : constants)
        (query : string) (params : option tuple) (w : world E)
        (e1 e2 e3 : E) (r : reply) (ex : exn) (rb : result reply) :
  query_attempt X K query params (ext w) = (e1, Ok r) ->
  perform X connection_commit e1 = (e2, Raise ex) ->
  perform X connection_rollback e2 = (e3, rb) ->
  exists added,
    lines_of added = []
    /\ In (Called connection_rollback) added
    /\ execute_select_query X K query params w
       = if is_sqlite3_Error (leaving_exception ex rb)
         then (mkWorld e3
                 (trace w ++ added
                  ++ [ Logged ERROR_LOG_LEVEL
                              (msg_query_failed
                                 query (leaving_exception ex rb)) ]),
               Ok (Some (rows_of r)))
         else (mkWorld e3 (trace w ++ added),
               Raise (leaving_exception ex rb)).
Proof.
  cbv [query_attempt in_connection select_calls perform_all
       execute_select_query run_function execute_select_query_body
       try_except bind with_connect do_call ret raise get_locals set_locals
       custom_logger dispatch].
  intros Hattempt Hexit Hback.
  exists (map Called
            [ sqlite3_connect (DB_LOCAL_PATH K);
              connection_cursor;
              cursor_execute query
                             (if truthy_params params then params else None);
              cursor_fetchall;
              connection_commit;
              connection_rollback ]).
  split; [reflexivity|]. split; [simpl; tauto|].
  revert Hattempt.
  destruct (truthy_params params); simpl;
    (destruct (perform X (sqlite3_connect (DB_LOCAL_PATH K)) (ext w))
      as [c1 [a1|x1]]; simpl; [|intro H; discriminate H]);
    (destruct (perform X connection_cursor c1) as [c2 [a2|x2]]; simpl;
     [|destruct (perform X connection_rollback c2) as [? [?|?]];
       intro H; discriminate H]);
    (destruct (perform X (cursor_execute query _) c2) as [c3 [a3|x3]]; simpl;
     [|destruct (perform X connection_rollback c3) as [? [?|?]];
       intro H; discriminate H]);
    (destruct (perform X cursor_fetchall c3) as [c4 [a4|x4]]; simpl;
     [|destruct (perform X connection_rollback c4) as [? [?|?]];
       intro H; discriminate H]);
    intro H; inversion H; subst; clear H;
    rewrite Hexit; simpl; rewrite Hback;
    destruct rb as [b|x]; simpl;
    match goal with
    | |- context [is_sqlite3_Error ?y] =>
        destruct (is_sqlite3_Error y); simpl
    end;
    rewrite <- ?app_assoc; reflexivity.
Qed.

(** ** More on the object store *)

Lemma all_credentials_true {E : Type} (X : Externals E) (e : E) :
  all_credentials X e = true ->
  truthy_str (environ_get X "AWS_ACCESS_KEY_ID" e) = true
  /\ truthy_str (environ_get X "AWS_SECRET_ACCESS_KEY" e) = true
  /\ truthy_str (environ_get X "AWS_REGION" e) = true.
Proof.
  unfold all_credentials, credential_names, missing. simpl.
  rewrite !negb_involutive, andb_true_r.
  intro H. apply andb_prop in H. destruct H as [Ha H].
  apply andb_prop in H. destruct H as [Hb Hc]. auto.
Qed.

Ltac same_call H :=
  repeat match goal with
         | H' : perform _ ?c ?e = _ |- _ =>
             lazymatch type of H with
             | perform _ c e = _ =>
                 lazymatch H' with
                 | H => fail
                 | _ => rewrite H in H'; inversion H'; subst; clear H'
                 end
             end
         end.

(** X10. With the three variables set and not empty, the client is made from
    exactly these three values, for the service "s3", and nothing is
    logged. *)
Theorem credentials_build_client
        {E : Type} (X : Externals E) (w : world E)
        (access_key secret_key region : string)
        (e1 e2 : E) (r1 r2 : reply) :
  environ_get X "AWS_ACCESS_KEY_ID" (ext w) = Some access_key ->
  environ_get X "AWS_SECRET_ACCESS_KEY" (ext w) = Some secret_key ->
  environ_get X "AWS_REGION" (ext w) = Some region ->
  access_key <> ""%string ->
  secret_key <> ""%string ->
  region <> ""%string ->
  perform X (boto3_Session access_key secret_key region) (ext w)
  = (e1, Ok r1) ->
  perform X (session_client "s3") e1 = (e2, Ok r2) ->
  run_function tt (_get_s3_client X) w
  = (mkWorld e2
       (trace w ++ [ Called (boto3_Session access_key secret_key region);
                     Called (session_client "s3") ]),
     Ok (Some S3Client)).
Proof.
  intros Ha Hb Hc Hna Hnb Hnc Hsession Hclient.
  apply String.eqb_neq in Hna, Hnb, Hnc.
  cbv [run_function _get_s3_client os_environ_get bind do_call ret].
  simpl. rewrite Ha, Hb, Hc. unfold truthy_str, str_of.
  rewrite Hna, Hnb, Hnc. simpl. rewrite Hsession. simpl.
  rewrite Hclient. rewrite <- app_assoc. reflexivity.
Qed.

(** X11. With credentials, a download makes the client, ensures the two data
    directories and asks for the one object (bucket, key, local path of the
    constants).  Whatever exception the transfer raises is logged as one
    ERROR line and absorbed; a transfer that returns is logged as one INFO
    line.  Either way the call returns [None]. *)
Theorem download_absorbs_transfer_failure
        {E : Type} (X : Externals E) (K : constants) (w : world E)
        (e1 e2 : E) (r1 : reply) (rt : result reply) :
  all_credentials X (ext w) = true ->
  perform_all X (client_calls X (ext w)
                 ++ [ os_makedirs (EXTRACTED_DATA_DIR K);
                      os_makedirs (GENERATED_DATA_DIR K) ]) (ext w)
  = (e1, Ok r1) ->
  perform X (s3_download_file (S3_BUCKET_NAME K) (SQLITE_DB_NAME K)
                              (DB_LOCAL_PATH K)) e1 = (e2, rt) ->
  download_database_from_s3 X K w
  = (mkWorld e2
       (trace w
        ++ map Called
             (client_calls X (ext w)
              ++ [ os_makedirs (EXTRACTED_DATA_DIR K);
                   os_makedirs (GENERATED_DATA_DIR K);
                   s3_download_file (S3_BUCKET_NAME K) (SQLITE_DB_NAME K)
                                    (DB_LOCAL_PATH K) ])
        ++ [ match rt with
             | Ok _ => Logged INFO_LOG_LEVEL (msg_downloaded K)
             | Raise ex => Logged ERROR_LOG_LEVEL (msg_download_failed ex)
             end ]),
     Ok tt).
Proof.
  intros Hall Hsetup Htransfer.
  destruct (all_credentials_true X (ext w) Hall) as [Ha [Hb Hc]].
  revert Hsetup.
  cbv [download_database_from_s3 run_function
       download_database_from_s3_body _get_s3_client os_environ_get
       ensure_data_directories_exist try_except bind do_call ret raise
       custom_logger dispatch is_Exception client_calls perform_all].
  simpl. rewrite Ha, Hb, Hc. simpl.
  destruct_perform; intro H; inversion H; subst; clear H;
    same_call Htransfer; rewrite <- ?app_assoc; reflexivity.
Qed.

(** X12. With credentials, an upload makes the client and sends the one file;
    it creates no directory.  Whatever exception the transfer raises is
    logged as one ERROR line and absorbed; a transfer that returns is
    logged as one INFO line.  Either way the call returns [None]. *)
Theorem upload_absorbs_transfer_failure
        {E : Type} (X : Externals E) (K : constants) (w : world E)
        (e1 e2 : E) (r1 : reply) (rt : result reply) :
  all_credentials X (ext w) = true ->
  perform_all X (client_calls X (ext w)) (ext w) = (e1, Ok r1) ->
  perform X (s3_upload_file (DB_LOCAL_PATH K) (S3_BUCKET_NAME K)
                            (SQLITE_DB_NAME K)) e1 = (e2, rt) ->
  upload_database_to_s3 X K w
  = (mkWorld e2
       (trace w
        ++ map Called
             (client_calls X (ext w)
              ++ [ s3_upload_file (DB_LOCAL_PATH K) (S3_BUCKET_NAME K)
                                  (SQLITE_DB_NAME K) ])
        ++ [ match rt with
             | Ok _ => Logged INFO_LOG_LEVEL (msg_uploaded K)
             | Raise ex => Logged ERROR_LOG_LEVEL (msg_upload_failed ex)
             end ]),
     Ok tt).
Proof.
  intros Hall Hsetup Htransfer.
  destruct (all_credentials_true X (ext w) Hall) as [Ha [Hb Hc]].
  revert Hsetup.
  cbv [upload_database_to_s3 run_function
       upload_database_to_s3_body _get_s3_client os_environ_get
       try_except bind do_call ret raise
       custom_logger dispatch is_Exception client_calls perform_all].
  simpl. rewrite Ha, Hb, Hc. simpl.
  destruct_perform; intro H; inversion H; subst; clear H;
    same_call Htransfer; rewrite <- ?app_assoc; reflexivity.
Qed.

(** X13. The client is made outside of any [try]: when [boto3] cannot make it,
    the exception reaches the caller of the download as of the upload;
    nothing is logged and no transfer is asked for. *)
Theorem client_failure_reaches_caller
        {E : Type} (X : Externals E) (K : constants) (w : world E)
        (e1 : E) (ex : exn) :
  all_credentials X (ext w) = true ->
  perform_all X (client_calls X (ext w)) (ext w) = (e1, Raise ex) ->
  exists added,
    download_database_from_s3 X K w
    = (mkWorld e1 (trace w ++ added), Raise ex)
    /\ upload_database_to_s3 X K w
       = (mkWorld e1 (trace w ++ added), Raise ex)
    /\ lines_of added = []
    /\ existsb is_transfer (calls_of added) = false.
Proof.
  intros Hall.
  destruct (all_credentials_true X (ext w) Hall) as [Ha [Hb Hc]].
  cbv [download_database_from_s3 upload_database_to_s3 run_function
       download_database_from_s3_body upload_database_to_s3_body
       _get_s3_client os_environ_get ensure_data_directories_exist
       try_except bind do_call ret raise custom_logger dispatch
       is_Exception client_calls perform_all].
  simpl. rewrite Ha, Hb, Hc. simpl.
  destruct (perform X _ (ext w)) as [e [r|x]]; simpl.
  - destruct (perform X (session_client "s3") e) as [e0 [r0|x]]; simpl;
      intro H; inversion H; subst; clear H.
    rewrite <- ?app_assoc. eexists. repeat split.
  - intro H; inversion H; subst; clear H.
    eexists. repeat split.
Qed.

(** X14. In a download the data directories are ensured outside of the [try]:
    when one of them cannot be made, the exception reaches the caller,
    nothing is logged and the transfer is not asked for. *)
Theorem download_directory_failure_reaches_caller
        {E : Type} (X : Externals E) (K : constants) (w : world E)
        (e1 e2 : E) (r1 : reply) (ex : exn) :
  all_credentials X (ext w) = true ->
  perform_all X (client_calls X (ext w)) (ext w) = (e1, Ok r1) ->
  perform_all X [ os_makedirs (EXTRACTED_DATA_DIR K);
                  os_makedirs (GENERATED_DATA_DIR K) ] e1
  = (e2, Raise ex) ->
  exists added,
    download_database_from_s3 X K w
    = (mkWorld e2 (trace w ++ added), Raise ex)
    /\ lines_of added = []
    /\ existsb is_transfer (calls_of added) = false.
Proof.
  intros Hall.
  destruct (all_credentials_true X (ext w) Hall) as [Ha [Hb Hc]].
  cbv [download_database_from_s3 run_function
       download_database_from_s3_body
       _get_s3_client os_environ_get ensure_data_directories_exist
       try_except bind do_call ret raise custom_logger dispatch
       is_Exception client_calls perform_all].
  simpl. rewrite Ha, Hb, Hc. simpl.
  destruct (perform X _ (ext w)) as [e [r|x]]; simpl;
    [|intro H; discriminate H].
  destruct (perform X (session_client "s3") e) as [e0 [r0|x]]; simpl;
    intro H; inversion H; subst; clear H.
  destruct (perform X (os_makedirs (EXTRACTED_DATA_DIR K)) e1)
    as [e3 [r3|x]]; simpl.
  - destruct (perform X (os_makedirs (GENERATED_DATA_DIR K)) e3)
      as [e4 [r4|x]]; simpl; intro H; inversion H; subst; clear H.
    rewrite <- ?app_assoc. eexists. repeat split.
  - intro H; inversion H; subst; clear H.
    rewrite <- ?app_assoc. eexists. repeat split.
Qed.

(** ** More on create_database *)

(** X15. When every step returns, the database is made by these calls in this
    order: the two directories, the schema file read, the connection, its
    cursor, the text of the file run as one script, a commit and a close;
    one INFO line tells where the database is. *)
Theorem create_database_runs_schema_file
        {E : Type} (X : Externals E) (K : constants) (w : world E)
        (e1 e2 e3 e4 : E) (r1 r2 r4 : reply) (script : string) :
  perform X (os_makedirs (EXTRACTED_DATA_DIR K)) (ext w) = (e1, Ok r1) ->
  perform X (os_makedirs (GENERATED_DATA_DIR K)) e1 = (e2, Ok r2) ->
  perform X (open_read (CREATE_TABLE_DEFINITIONS_FILE_PATH K)) e2
  = (e3, Ok (RText script)) ->
  perform_all X [ sqlite3_connect (DB_LOCAL_PATH K);
                  connection_cursor;
                  cursor_executescript script;
                  connection_commit;
                  connection_close ] e3 = (e4, Ok r4) ->
  create_database X K w
  = (mkWorld e4
       (trace w
        ++ map Called
             [ os_makedirs (EXTRACTED_DATA_DIR K);
               os_makedirs (GENERATED_DATA_DIR K);
               open_read (CREATE_TABLE_DEFINITIONS_FILE_PATH K);
               sqlite3_connect (DB_LOCAL_PATH K);
               connection_cursor;
               cursor_executescript script;
               connection_commit;
               connection_close ]
        ++ [ Logged INFO_LOG_LEVEL (msg_database_created K) ]),
     Ok tt).
Proof.
  intros Hdir1 Hdir2 Hread.
  cbv [perform_all create_database run_function
       create_database_body ensure_data_directories_exist try_except bind
       do_call ret raise custom_logger dispatch is_Exception].
  rewrite Hdir1. simpl. rewrite Hdir2. simpl. rewrite Hread. simpl.
  destruct_perform; intro H; inversion H; subst; clear H.
  rewrite <- ?app_assoc. reflexivity.
Qed.

(** X16. The connection is closed on the last line of the [try] only: when the
    cursor, the script or the commit fails on an opened connection, the
    failure is logged and absorbed, and the connection is neither closed
    nor rolled back. *)
Theorem create_database_failure_leaves_connection_open
        {E : Type} (X : Externals E) (K : constants) (w : world E)
        (e1 e2 e3 e4 e5 : E) (r1 r2 r4 : reply) (script : string)
        (ex : exn) :
  perform X (os_makedirs (EXTRACTED_DATA_DIR K)) (ext w) = (e1, Ok r1) ->
  perform X (os_makedirs (GENERATED_DATA_DIR K)) e1 = (e2, Ok r2) ->
  perform X (open_read (CREATE_TABLE_DEFINITIONS_FILE_PATH K)) e2
  = (e3, Ok (RText script)) ->
  perform X (sqlite3_connect (DB_LOCAL_PATH K)) e3 = (e4, Ok r4) ->
  perform_all X [ connection_cursor;
                  cursor_executescript script;
                  connection_commit ] e4 = (e5, Raise ex) ->
  exists added,
    create_database X K w = (mkWorld e5 (trace w ++ added), Ok tt)
    /\ In (Called (sqlite3_connect (DB_LOCAL_PATH K))) added
    /\ existsb gives_back (calls_of added) = false
    /\ lines_of added = [(ERROR_LOG_LEVEL, msg_error_creating ex)].
Proof.
  intros Hdir1 Hdir2 Hread Hconnect.
  cbv [perform_all create_database run_function
       create_database_body ensure_data_directories_exist try_except bind
       do_call ret raise custom_logger dispatch is_Exception].
  rewrite Hdir1. simpl. rewrite Hdir2. simpl. rewrite Hread. simpl.
  rewrite Hconnect. simpl.
  destruct_perform; intro H; inversion H; subst; clear H;
    rewrite <- ?app_assoc; eexists;
    (split; [reflexivity|]); simpl; repeat split; auto 10.
Qed.

(** ** Connections are left open *)

Lemma insert_row_never_closes {E : Type} (X : Externals E)
      (sql : string) (index : nat) (row : tuple)
      (l : insert_locals) (w : world E) :
  exists l' e' mid r,
    insert_row X sql index row (l, w)
    = ((l', mkWorld e' (trace w ++ mid)), r)
    /\ existsb is_close (calls_of mid) = false.
Proof.
  unfold insert_row, try_except, bind, do_call, set_locals, custom_logger.
  simpl.
  destruct (perform X (cursor_execute sql (Some row)) (ext w))
    as [e1 [r1|x]]; simpl.
  - destruct (perform X connection_commit e1) as [e2 [r2|x]]; simpl.
    + rewrite <- ?app_assoc. do 4 eexists. split; reflexivity.
    + destruct (is_sqlite3_IntegrityError x); simpl;
        [|destruct (is_sqlite3_Error x); simpl];
        rewrite <- ?app_assoc; do 4 eexists; split; reflexivity.
  - destruct (is_sqlite3_IntegrityError x); simpl;
      [|destruct (is_sqlite3_Error x); simpl];
      rewrite <- ?app_assoc; do 4 eexists; split; reflexivity.
Qed.

Lemma insert_rows_never_close {E : Type} (X : Externals E) (sql : string) :
  forall (data : list tuple) (index : nat) (l : insert_locals)
         (w : world E),
  exists l' e' mid r,
    insert_rows X sql index data (l, w)
    = ((l', mkWorld e' (trace w ++ mid)), r)
    /\ existsb is_close (calls_of mid) = false.
Proof.
  induction data as [|row rest IH]; intros index l w.
  - exists l, (ext w), [], (Ok tt). destruct w; simpl.
    rewrite app_nil_r. split; reflexivity.
  - destruct (insert_row_never_closes X sql index row l w)
      as [l1 [e1 [mid1 [r1 [Hrow Hmid1]]]]].
    cbn [insert_rows]. unfold bind at 1. rewrite Hrow.
    destruct r1 as [u|ex].
    + destruct (IH (S index) l1 (mkWorld e1 (trace w ++ mid1)))
        as [l2 [e2 [mid2 [r2 [Hrest Hmid2]]]]].
      rewrite Hrest. exists l2, e2, (mid1 ++ mid2), r2.
      cbn [trace]. rewrite <- app_assoc, calls_of_app, existsb_app,
        Hmid1, Hmid2.
      split; reflexivity.
    + exists l1, e1, mid1, (Raise ex). split; [reflexivity|exact Hmid1].
Qed.

(** X9. [with sqlite3.connect(...)] commits or rolls back and does not close:
    whatever happens, a call of [insert_into_database] or of
    [execute_select_query] never closes the connection it opened. *)
Theorem connections_are_never_closed
        {E : Type} (X : Externals E) (K : constants) (w : world E) :
  (forall table_name column_names data,
      existsb is_close
        (calls_of
           (events_since
              w (fst (insert_into_database X K table_name column_names
                                           data w))))
      = false)
  /\ (forall query params,
         existsb is_close
           (calls_of
              (events_since
                 w (fst (execute_select_query X K query params w))))
         = false).
Proof.
  split.
  - intros table_name column_names data.
    cbv [insert_into_database run_function insert_into_database_body
         try_except bind with_connect do_call].
    destruct (perform X (sqlite3_connect (DB_LOCAL_PATH K)) (ext w))
      as [e1 [r1|x]]; simpl.
    + destruct (perform X connection_cursor e1) as [e2 [r2|x]]; simpl.
      * destruct (insert_rows_never_close
                    X (insert_sql table_name column_names) data 1
                    (mkInsertLocals 0 0)
                    (mkWorld e2
                       ((trace w
                         ++ [Called (sqlite3_connect (DB_LOCAL_PATH K))])
                        ++ [Called connection_cursor])))
          as [l' [e' [mid [r [Hloop Hmid]]]]].
        rewrite Hloop. cbn [trace ext].
        destruct r as [u|x]; simpl; destruct_perform;
          repeat match goal with
                 | |- context [is_sqlite3_Error ?y] =>
                     destruct (is_sqlite3_Error y); simpl
                 end;
          unfold ret, raise, get_locals, set_locals, custom_logger; simpl;
          rewrite <- ?app_assoc; rewrite events_since_app;
          simpl; rewrite calls_of_app, existsb_app, Hmid; reflexivity.
      * destruct_perform;
          repeat match goal with
                 | |- context [is_sqlite3_Error ?y] =>
                     destruct (is_sqlite3_Error y); simpl
                 end;
          unfold ret, raise, get_locals, set_locals, custom_logger; simpl;
          rewrite <- ?app_assoc; rewrite events_since_app; reflexivity.
    + destruct (is_sqlite3_Error x); simpl;
        unfold ret, raise, get_locals, set_locals, custom_logger; simpl;
        rewrite <- ?app_assoc; rewrite events_since_app; reflexivity.
  - intros query params.
    cbv [execute_select_query run_function execute_select_query_body
         try_except bind with_connect do_call ret raise get_locals
         set_locals custom_logger dispatch].
    destruct (truthy_params params); simpl; destruct_perform;
      repeat match goal with
             | |- context [is_sqlite3_Error ?y] =>
                 destruct (is_sqlite3_Error y); simpl
             end;
      rewrite <- ?app_assoc; rewrite events_since_app; reflexivity.
Qed.

(** ** The further statements at work *)

Lemma tally_adds_up_when_connection_closes_witness :
  snd (insert_into_database KeyedTable.externals sample_constants
                            "t" ["id"; "val"] three_rows fresh_table)
  = Ok (2, 1)
  /\ 2 + 1 = length three_rows.
Proof.
  destruct (tally_adds_up_when_connection_closes
              KeyedTable.externals sample_constants "t" ["id"; "val"]
              three_rows fresh_table
              (ext fresh_table) (ext fresh_table)
              (KeyedTable.mkState true [ [VStr "a"; VStr "1"];
                                         [VStr "b"; VStr "2"] ] [] [])
              (KeyedTable.mkState true [ [VStr "a"; VStr "1"];
                                         [VStr "b"; VStr "2"] ] [] [])
              RNone RNone RNone
              [RowInserted; RowInserted; RowFailed KeyedTable.unique_failed]
              eq_refl eq_refl eq_refl eq_refl eq_refl)
    as [inserted [failed [added [Hrun [Hsum [Hi [Hf _]]]]]]].
  rewrite Hrun. subst inserted failed. split; reflexivity.
Defined.

Lemma closing_commit_failure_keeps_inserted_witness :
  snd (insert_into_database Replay.externals sample_constants
                            "t" ["id"; "val"] two_rows locked_at_commit)
  = Ok (1, 2).
Proof.
  destruct (closing_commit_failure_keeps_inserted
              Replay.externals sample_constants "t" ["id"; "val"]
              two_rows locked_at_commit
              _ _ _ _ _ RNone RNone database_locked (Ok RNone)
              [RowInserted; RowFailed database_locked]
              eq_refl eq_refl eq_refl eq_refl eq_refl eq_refl)
    as [mid [_ Hrun]].
  rewrite Hrun. reflexivity.
Defined.

Lemma row_exception_aborts_batch_witness :
  snd (insert_into_database Replay.externals sample_constants
                            "t" ["id"; "n"] big_rows overflow_on_second_row)
  = Raise int_too_large
  /\ executed_rows
       (calls_of (trace (fst (insert_into_database
                                Replay.externals sample_constants
                                "t" ["id"; "n"] big_rows
                                overflow_on_second_row))))
     = firstn 2 big_rows.
Proof.
  destruct (row_exception_aborts_batch
              Replay.externals sample_constants "t" ["id"; "n"]
              big_rows overflow_on_second_row
              _ _ _ _ RNone RNone RNone int_too_large
              [RowInserted; RowEscaped int_too_large]
              eq_refl eq_refl eq_refl eq_refl eq_refl)
    as [mid [Hrun [_ [Hexec _]]]].
  rewrite Hrun. cbn [fst snd trace]. split; [reflexivity|].
  cbn [app calls_of executed_rows overflow_on_second_row Replay.start trace].
  rewrite calls_of_app, executed_rows_app, Hexec. reflexivity.
Defined.

Lemma cursor_failure_fails_whole_batch_witness :
  snd (insert_into_database Replay.externals sample_constants
                            "t" ["id"; "val"] two_rows no_cursor)
  = Ok (0, 2).
Proof.
  rewrite (cursor_failure_fails_whole_batch
             Replay.externals sample_constants "t" ["id"; "val"]
             two_rows no_cursor _ _ _ RNone RNone database_locked
             eq_refl eq_refl eq_refl eq_refl).
  reflexivity.
Defined.

Lemma valid_batch_commits_row_by_row_witness :
  calls_of (trace (fst (insert_into_database
                          KeyedTable.externals sample_constants
                          "t" ["id"; "val"] two_rows fresh_table)))
  = [ sqlite3_connect "data/generated/etl.db";
      connection_cursor;
      cursor_execute "INSERT INTO t (id, val) VALUES (?, ?)"
                     (Some [VStr "a"; VStr "1"]);
      connection_commit;
      cursor_execute "INSERT INTO t (id, val) VALUES (?, ?)"
                     (Some [VStr "b"; VStr "2"]);
      connection_commit;
      connection_commit ].
Proof.
  rewrite (valid_batch_commits_row_by_row
             KeyedTable.externals sample_constants "t" ["id"; "val"]
             two_rows fresh_table
             (ext fresh_table) (ext fresh_table)
             (KeyedTable.mkState true two_rows [] [])
             (KeyedTable.mkState true two_rows [] [])
             RNone RNone RNone [RowInserted; RowInserted]
             eq_refl eq_refl eq_refl eq_refl eq_refl).
  reflexivity.
Defined.

Lemma select_runs_one_statement_witness :
  execute_select_query KeyedTable.externals sample_constants
                       "SELECT * FROM t WHERE id = ?" (Some [VStr "a"])
                       stocked_table
  = (mkWorld (KeyedTable.mkState true
                [ [VStr "a"; VStr "1"]; [VStr "b"; VStr "2"] ]
                [ [VStr "a"; VStr "1"] ] [])
       [ Called (sqlite3_connect "data/generated/etl.db");
         Called connection_cursor;
         Called (cursor_execute "SELECT * FROM t WHERE id = ?"
                                (Some [VStr "a"]));
         Called cursor_fetchall;
         Called connection_commit ],
     Ok (Some [ [VStr "a"; VStr "1"] ])).
Proof.
  exact (select_runs_one_statement
           KeyedTable.externals sample_constants
           "SELECT * FROM t WHERE id = ?" (Some [VStr "a"]) stocked_table
           _ _ (RRows [ [VStr "a"; VStr "1"] ]) RNone eq_refl eq_refl).
Defined.

Lemma closing_failure_keeps_fetched_rows_witness :
  snd (execute_select_query Replay.externals sample_constants
                            insert_returning None locked_after_fetch)
  = Ok (Some [ [VStr "c"] ])
  /\ lines_of (trace (fst (execute_select_query
                             Replay.externals sample_constants
                             insert_returning None locked_after_fetch)))
     = [(ERROR_LOG_LEVEL, msg_query_failed insert_returning database_locked)].
Proof.
  destruct (closing_failure_keeps_fetched_rows
              Replay.externals sample_constants insert_returning None
              locked_after_fetch _ _ _ (RRows [ [VStr "c"] ])
              database_locked (Ok RNone) eq_refl eq_refl eq_refl)
    as [added [Hlines [_ Hrun]]].
  rewrite Hrun. cbn [leaving_exception is_sqlite3_Error exn_class_of
                     database_locked fst snd trace].
  split; [reflexivity|].
  rewrite !lines_of_app, Hlines. reflexivity.
Defined.

Lemma credentials_build_client_witness :
  run_function tt (_get_s3_client KeyedTable.externals) signed_in
  = (mkWorld (ext signed_in)
       [ Called (boto3_Session "key" "secret" "us-east-1");
         Called (session_client "s3") ],
     Ok (Some S3Client)).
Proof.
  refine (credentials_build_client
            KeyedTable.externals signed_in "key" "secret" "us-east-1"
            _ _ RNone RNone eq_refl eq_refl eq_refl _ _ _ eq_refl eq_refl);
    discriminate.
Defined.

Lemma download_absorbs_transfer_failure_witness :
  snd (download_database_from_s3 Replay.externals sample_constants
                                 transfer_fails_after_directories)
  = Ok tt
  /\ lines_of (trace (fst (download_database_from_s3
                             Replay.externals sample_constants
                             transfer_fails_after_directories)))
     = [(ERROR_LOG_LEVEL, msg_download_failed no_such_key)].
Proof.
  rewrite (download_absorbs_transfer_failure
             Replay.externals sample_constants
             transfer_fails_after_directories
             _ _ RNone (Raise no_such_key) eq_refl eq_refl eq_refl).
  split; reflexivity.
Defined.

Lemma upload_absorbs_transfer_failure_witness :
  snd (upload_database_to_s3 Replay.externals sample_constants
                             transfer_fails)
  = Ok tt
  /\ lines_of (trace (fst (upload_database_to_s3
                             Replay.externals sample_constants
                             transfer_fails)))
     = [(ERROR_LOG_LEVEL, msg_upload_failed no_such_key)].
Proof.
  rewrite (upload_absorbs_transfer_failure
             Replay.externals sample_constants transfer_fails
             _ _ RNone (Raise no_such_key) eq_refl eq_refl eq_refl).
  split; reflexivity.
Defined.

Lemma client_failure_reaches_caller_witness :
  snd (download_database_from_s3 Replay.externals sample_constants
                                 no_client)
  = Raise unknown_service
  /\ snd (upload_database_to_s3 Replay.externals sample_constants
                                no_client)
     = Raise unknown_service.
Proof.
  destruct (client_failure_reaches_caller
              Replay.externals sample_constants no_client
              _ unknown_service eq_refl eq_refl)
    as [added [Hdown [Hup _]]].
  rewrite Hdown, Hup. split; reflexivity.
Defined.

Lemma download_directory_failure_reaches_caller_witness :
  snd (download_database_from_s3 Replay.externals sample_constants
                                 second_directory_denied)
  = Raise permission_denied.
Proof.
  destruct (download_directory_failure_reaches_caller
              Replay.externals sample_constants second_directory_denied
              _ _ RNone permission_denied eq_refl eq_refl eq_refl)
    as [added [Hdown _]].
  rewrite Hdown. reflexivity.
Defined.

Lemma create_database_runs_schema_file_witness :
  In (Called (cursor_executescript
                "CREATE TABLE t (id TEXT PRIMARY KEY, val TEXT);"))
     (trace (fst (create_database Replay.externals sample_constants
                                  good_schema)))
  /\ snd (create_database Replay.externals sample_constants good_schema)
     = Ok tt.
Proof.
  rewrite (create_database_runs_schema_file
             Replay.externals sample_constants good_schema
             _ _ _ _ RNone RNone RNone
             "CREATE TABLE t (id TEXT PRIMARY KEY, val TEXT);"
             eq_refl eq_refl eq_refl eq_refl).
  split; [|reflexivity].
  cbn. tauto.
Defined.

Lemma create_database_failure_leaves_connection_open_witness :
  snd (create_database Replay.externals sample_constants bad_schema) = Ok tt
  /\ existsb gives_back
       (calls_of (trace (fst (create_database
                                Replay.externals sample_constants
                                bad_schema))))
     = false.
Proof.
  destruct (create_database_failure_leaves_connection_open
              Replay.externals sample_constants bad_schema
              _ _ _ _ _ RNone RNone RNone "CREAT TABLE t;" syntax_error
              eq_refl eq_refl eq_refl eq_refl eq_refl)
    as [added [Hrun [_ [Hopen _]]]].
  rewrite Hrun. split; [reflexivity|exact Hopen].
Defined.

(** ** The statement text *)

Lemma question_marks_append (a b : string) :
  question_marks (a ++ b)%string = question_marks a + question_marks b.
Proof.
  induction a as [|c a IH]; simpl; [reflexivity|].
  rewrite IH. lia.
Qed.

Lemma placeholders_question_marks (n : nat) :
  question_marks (String.concat ", " (repeat "?"%string n)) = n.
Proof.
  induction n as [|n IH]; [reflexivity|].
  destruct n as [|n]; [reflexivity|].
  change (repeat "?"%string (S (S n)))
    with ("?"%string :: repeat "?"%string (S n)).
  change (String.concat ", " ("?"%string :: repeat "?"%string (S n)))
    with ("?" ++ ", " ++ String.concat ", " (repeat "?"%string (S n)))%string.
  rewrite !question_marks_append, IH. reflexivity.
Qed.

(** X6. The INSERT statement names the table and the columns as they are
    given, joined by ", ", and ends with a VALUES list that holds exactly
    one question mark for each column. *)
Theorem insert_sql_has_one_placeholder_per_column
        (table_name : string) (column_names : list string) :
  exists placeholders,
    insert_sql table_name column_names
    = ("INSERT INTO " ++ table_name ++ " ("
       ++ String.concat ", " column_names
       ++ ") VALUES (" ++ placeholders ++ ")")%string
    /\ question_marks placeholders = length column_names.
Proof.
  exists (String.concat ", " (repeat "?"%string (length column_names))).
  split; [reflexivity|apply placeholders_question_marks].
Qed.
